(** * Task Management API: the request handlers of [main.py] over the
      [Task] table of [models.py]

    The handlers are embedded as computations in a state-and-exception
    monad.  The state is what the handlers reach through their
    collaborators: the [task] table behind the SQLModel session, the
    primary-key generator of the storage engine, the wall clock read by
    [datetime.now(timezone.utc)], and a log of the session calls made. *)

From stdpp Require Import base numbers list strings gmap.

Open Scope Z_scope.

(** ** Data model ([models.py]) *)

(** A [datetime] is a point on the time line, in microseconds. *)
Definition datetime := Z.

(** [class Task(SQLModel, table=True)].  The record is the Python instance:
    a table model does not validate on assignment, so the attributes
    [title] and [status], declared [str], can hold [None] after a
    [setattr]; [id] is [None] until the row has been inserted. *)
Module Task.
Record t := mk {
  id : option Z;
  title : option string;
  description : option string;
  status : option string;
  created_at : datetime;
  updated_at : datetime
}.

Definition set_id (v : option Z) (x : t) : t :=
  mk v (title x) (description x) (status x) (created_at x) (updated_at x).
Definition set_title (v : option string) (x : t) : t :=
  mk (id x) v (description x) (status x) (created_at x) (updated_at x).
Definition set_description (v : option string) (x : t) : t :=
  mk (id x) (title x) v (status x) (created_at x) (updated_at x).
Definition set_status (v : option string) (x : t) : t :=
  mk (id x) (title x) (description x) v (created_at x) (updated_at x).
Definition set_updated_at (v : datetime) (x : t) : t :=
  mk (id x) (title x) (description x) (status x) (created_at x) v.
End Task.

(** [class TaskCreate(BaseModel)]: a validated creation payload. *)
Module TaskCreate.
Record t := mk {
  title : string;
  description : option string
}.
End TaskCreate.

(** [class TaskUpdate(BaseModel)]: every field is [Optional] with default
    [None], and pydantic remembers which fields the payload set.  A field is
    [None] when the payload leaves it out, [Some None] when the payload sets
    it to JSON [null], [Some (Some s)] when it sets it to a string. *)
Module TaskUpdate.
Record t := mk {
  title : option (option string);
  description : option (option string);
  status : option (option string)
}.
End TaskUpdate.

(** ** The collaborators' state *)

(** The [task] table in the order a full scan returns the rows, and the
    primary-key generator. *)
Record Database := mkDatabase {
  rows : list Task.t;
  next_id : Z
}.

(** Calls made on the session, in order. *)
Inductive SessionCall :=
| CallGet (task_id : Z)
| CallExec (where_status : option string)
| CallAdd
| CallDelete (task_id : Z)
| CallCommit
| CallRefresh.

(** [clock n] is what the [n]-th reading of [datetime.now(timezone.utc)]
    returns; [ticks] counts the readings taken so far. *)
Record World := mkWorld {
  db : Database;
  clock : nat → datetime;
  ticks : nat;
  calls : list SessionCall
}.

Definition with_db (d : Database) (σ : World) : World :=
  mkWorld d (clock σ) (ticks σ) (calls σ).
Definition with_call (c : list SessionCall) (σ : World) : World :=
  mkWorld (db σ) (clock σ) (ticks σ) (calls σ ++ c).

(** ** Exceptions and the handler monad *)

Inductive Detail :=
| TaskNotFound (task_id : Z)
| InvalidStatusFilter
| InvalidStatus.

Inductive Exception :=
| HTTPException (status_code : Z) (detail : Detail)
| RequestValidationError
| IntegrityError
| InvalidRequestError.

Definition HTTP_400_BAD_REQUEST : Z := 400.
Definition HTTP_404_NOT_FOUND : Z := 404.

Inductive Result (A : Type) :=
| Ok (a : A)
| Raise (e : Exception).
Arguments Ok {A} a.
Arguments Raise {A} e.

Definition M (A : Type) : Type := World → Result A * World.

Definition ret {A} (a : A) : M A := λ σ, (Ok a, σ).
Definition raise {A} (e : Exception) : M A := λ σ, (Raise e, σ).
Definition bind {A B} (m : M A) (k : A → M B) : M B :=
  λ σ, match m σ with
       | (Ok a, σ') => k a σ'
       | (Raise e, σ') => (Raise e, σ')
       end.

Notation "x <- m ;; k" := (bind m (λ x, k))
  (at level 100, m at next level, right associativity).
Notation "m ;;; k" := (bind m (λ _, k))
  (at level 100, right associativity).

(** ** The clock *)

(** [datetime.now(timezone.utc)] *)
Definition datetime_now : M datetime :=
  λ σ, (Ok (clock σ (ticks σ)),
        mkWorld (db σ) (clock σ) (S (ticks σ)) (calls σ)).

Definition get_current_time : M datetime := datetime_now.

(** ** The session *)

Definition has_id (task_id : Z) (x : Task.t) : bool :=
  bool_decide (Task.id x = Some task_id).

Definition find_task (task_id : Z) (l : list Task.t) : option Task.t :=
  List.find (has_id task_id) l.

(** [session.get(Task, task_id)]: the row with that primary key, or [None]. *)
Definition session_get (task_id : Z) : M (option Task.t) :=
  λ σ, (Ok (find_task task_id (rows (db σ))), with_call [CallGet task_id] σ).

(** [select(Task)], possibly with [.where(Task.status == s)]. *)
Record Select := mkSelect { where_status : option string }.

Definition select_Task : Select := mkSelect None.
Definition where_status_eq (s : string) (st : Select) : Select :=
  mkSelect (Some s).

Definition matches (st : Select) (x : Task.t) : bool :=
  match where_status st with
  | None => true
  | Some s => bool_decide (Task.status x = Some s)
  end.

(** [session.exec(statement).all()] *)
Definition session_exec_all (st : Select) : M (list Task.t) :=
  λ σ, (Ok (List.filter (matches st) (rows (db σ))),
        with_call [CallExec (where_status st)] σ).

(** UPDATE of the row with primary key [i]: the row keeps its place. *)
Definition replace_row (i : Z) (x : Task.t) (l : list Task.t) : list Task.t :=
  List.map (λ r, if has_id i r then x else r) l.

(** DELETE of the row with primary key [i]. *)
Definition remove_row (i : Z) (l : list Task.t) : list Task.t :=
  List.filter (λ r, negb (has_id i r)) l.

(** Modelled from the spec: the storage engine behind the session, which
    is not part of the repository.  An instance without [id] is inserted
    "as the newest entry in the store's iteration order" under a key taken
    from the generator, which allocates "a new, never-before-used
    identifier" ("monotonically increasing counter semantics"); an instance
    with an [id] overwrites its row in place.  The flush fails on a
    [None] in a column that [models.py] declares without [Optional]
    ([title: str], [status: str]). *)
Definition flush (x : Task.t) (d : Database) : option (Task.t * Database) :=
  match Task.title x, Task.status x with
  | Some _, Some _ =>
      match Task.id x with
      | None =>
          let x' := Task.set_id (Some (next_id d)) x in
          Some (x', mkDatabase (rows d ++ [x']) (next_id d + 1))
      | Some i => Some (x, mkDatabase (replace_row i x (rows d)) (next_id d))
      end
  | _, _ => None
  end.

(** [session.add(task); session.commit()].  The instance comes back with
    its primary key populated; a failed flush rolls the transaction back. *)
Definition session_add_commit (x : Task.t) : M Task.t :=
  λ σ, match flush x (db σ) with
       | Some (x', d') => (Ok x', with_db d' (with_call [CallAdd; CallCommit] σ))
       | None => (Raise IntegrityError, with_call [CallAdd; CallCommit] σ)
       end.

(** [session.refresh(task)]: reload the instance from its row. *)
Definition session_refresh (x : Task.t) : M Task.t :=
  λ σ, match Task.id x with
       | Some i =>
           match find_task i (rows (db σ)) with
           | Some r => (Ok r, with_call [CallRefresh] σ)
           | None => (Raise InvalidRequestError, with_call [CallRefresh] σ)
           end
       | None => (Raise InvalidRequestError, with_call [CallRefresh] σ)
       end.

(** [session.delete(task); session.commit()] *)
Definition session_delete_commit (x : Task.t) : M unit :=
  λ σ, match Task.id x with
       | Some i =>
           (Ok tt,
            with_db (mkDatabase (remove_row i (rows (db σ))) (next_id (db σ)))
                    (with_call [CallDelete i; CallCommit] σ))
       | None => (Raise InvalidRequestError, with_call [CallCommit] σ)
       end.

(** ** The handlers ([main.py]) *)

Definition valid_statuses : list string :=
  ["pending"; "in_progress"; "completed"]%string.

(** [v in valid_statuses], for a value that may be [None]. *)
Definition in_valid_statuses (v : option string) : bool :=
  match v with
  | Some s => bool_decide (s ∈ valid_statuses)
  | None => false
  end.

(** [Task(title=..., description=...)]: [id] and [status] take their
    declared defaults, and each of [created_at] and [updated_at] calls its
    own [default_factory], in the order the fields are declared. *)
Definition Task_init (title : string) (description : option string)
  : M Task.t :=
  created <- get_current_time ;;
  updated <- get_current_time ;;
  ret (Task.mk None (Some title) description (Some "pending"%string)
         created updated).

Definition create_task (task_data : TaskCreate.t) : M Task.t :=
  task <- Task_init (TaskCreate.title task_data)
                    (TaskCreate.description task_data) ;;
  task <- session_add_commit task ;;
  task <- session_refresh task ;;
  ret task.

(** Truth value of [status_filter: str | None]. *)
Definition truthy (status_filter : option string) : bool :=
  match status_filter with
  | None => false
  | Some s => negb (bool_decide (s = ""%string))
  end.

Definition list_tasks (status_filter : option string) : M (list Task.t) :=
  let statement := select_Task in
  statement <-
    (match status_filter with
     | Some s =>
         if truthy status_filter then
           if negb (in_valid_statuses status_filter) then
             raise (HTTPException HTTP_400_BAD_REQUEST InvalidStatusFilter)
           else ret (where_status_eq s statement)
         else ret statement
     | None => ret statement
     end) ;;
  tasks <- session_exec_all statement ;;
  ret tasks.

Definition get_task (task_id : Z) : M Task.t :=
  task <- session_get task_id ;;
  match task with
  | None => raise (HTTPException HTTP_404_NOT_FOUND (TaskNotFound task_id))
  | Some task => ret task
  end.

(** [task_update.model_dump(exclude_unset=True)]: the fields the payload
    set, in the order they are declared. *)
Definition model_dump_exclude_unset (u : TaskUpdate.t)
  : list (string * option string) :=
  match TaskUpdate.title u with Some v => [("title"%string, v)] | None => [] end
  ++ match TaskUpdate.description u with
     | Some v => [("description"%string, v)] | None => [] end
  ++ match TaskUpdate.status u with
     | Some v => [("status"%string, v)] | None => [] end.

(** [update_data[key]], [None] when [key not in update_data]. *)
Fixpoint dict_get (key : string) (d : list (string * option string))
  : option (option string) :=
  match d with
  | [] => None
  | (k, v) :: d' => if bool_decide (k = key) then Some v else dict_get key d'
  end.

Definition setattr (task : Task.t) (key : string) (value : option string)
  : Task.t :=
  if bool_decide (key = "title"%string) then Task.set_title value task
  else if bool_decide (key = "description"%string)
       then Task.set_description value task
  else if bool_decide (key = "status"%string) then Task.set_status value task
  else task.

(** [for key, value in update_data.items(): setattr(task, key, value)] *)
Definition setattr_items (update_data : list (string * option string))
  (task : Task.t) : Task.t :=
  List.fold_left (λ x kv, setattr x (fst kv) (snd kv)) update_data task.

Definition update_task (task_id : Z) (task_update : TaskUpdate.t)
  : M Task.t :=
  task <- session_get task_id ;;
  match task with
  | None => raise (HTTPException HTTP_404_NOT_FOUND (TaskNotFound task_id))
  | Some task =>
      let update_data := model_dump_exclude_unset task_update in
      (match dict_get "status" update_data with
       | Some v =>
           if negb (in_valid_statuses v) then
             raise (HTTPException HTTP_400_BAD_REQUEST InvalidStatus)
           else ret tt
       | None => ret tt
       end) ;;;
      let task := setattr_items update_data task in
      now <- datetime_now ;;
      let task := Task.set_updated_at now task in
      task <- session_add_commit task ;;
      task <- session_refresh task ;;
      ret task
  end.

Definition delete_task (task_id : Z) : M unit :=
  task <- session_get task_id ;;
  match task with
  | None => raise (HTTPException HTTP_404_NOT_FOUND (TaskNotFound task_id))
  | Some task => session_delete_commit task
  end.

(** ** Binding the request to the handler's parameters *)

(** A JSON value of the request body.  No validator below looks inside an
    array or an object, so their contents are left out. *)
Inductive JSON :=
| JNull
| JBool (b : bool)
| JNumber (n : Z)
| JString (s : string)
| JArray
| JObject.

(** [title: str = Field(min_length=1, max_length=200)] *)
Definition validate_title (v : option JSON) : option string :=
  match v with
  | Some (JString s) =>
      if bool_decide (1 ≤ String.length s ≤ 200)%nat then Some s else None
  | _ => None
  end.

(** [description: Optional[str] = Field(default=None, max_length=1000)] *)
Definition validate_description (v : option JSON) : option (option string) :=
  match v with
  | None | Some JNull => Some None
  | Some (JString s) =>
      if bool_decide (String.length s ≤ 1000)%nat then Some (Some s) else None
  | Some _ => None
  end.

(** Validation of a JSON object against [TaskCreate]: only the declared
    fields are read, keys the model does not declare are dropped. *)
Definition TaskCreate_validate (body : gmap string JSON)
  : option TaskCreate.t :=
  match validate_title (body !! "title"%string),
        validate_description (body !! "description"%string) with
  | Some t, Some d => Some (TaskCreate.mk t d)
  | _, _ => None
  end.

(** [POST /tasks] *)
Definition post_tasks (body : gmap string JSON) : M Task.t :=
  match TaskCreate_validate body with
  | Some task_data => create_task task_data
  | None => raise RequestValidationError
  end.

(** [GET /tasks]: [list_tasks] declares the one query parameter
    [status_filter]; whatever else the query string carries is not bound. *)
Definition get_tasks (query : gmap string string) : M (list Task.t) :=
  list_tasks (query !! "status_filter"%string).

(** ** Sequences of requests *)

Inductive Request :=
| Create (task_data : TaskCreate.t)
| List (status_filter : option string)
| Get (task_id : Z)
| Update (task_id : Z) (task_update : TaskUpdate.t)
| Delete (task_id : Z).

Inductive Response :=
| Created (r : Result Task.t)
| Listed (r : Result (list Task.t))
| Got (r : Result Task.t)
| Updated (r : Result Task.t)
| Deleted (r : Result unit).

Definition handle (q : Request) (σ : World) : Response * World :=
  match q with
  | Create d => let (r, σ') := create_task d σ in (Created r, σ')
  | List f => let (r, σ') := list_tasks f σ in (Listed r, σ')
  | Get i => let (r, σ') := get_task i σ in (Got r, σ')
  | Update i u => let (r, σ') := update_task i u σ in (Updated r, σ')
  | Delete i => let (r, σ') := delete_task i σ in (Deleted r, σ')
  end.

Fixpoint run (qs : list Request) (σ : World) : list Response * World :=
  match qs with
  | [] => ([], σ)
  | q :: qs' =>
      let (r, σ') := handle q σ in
      let (rs, σ'') := run qs' σ' in
      (r :: rs, σ'')
  end.

(** The state after [SQLModel.metadata.create_all(engine)] on a fresh
    database, under the clock [c]. *)
Definition init (c : nat → datetime) : World :=
  mkWorld (mkDatabase [] 1) c 0 [].

(** The identifiers handed out by the successful creations of a history. *)
Fixpoint allocated (rs : list Response) : list Z :=
  match rs with
  | [] => []
  | Created (Ok x) :: rs' =>
      match Task.id x with
      | Some i => i :: allocated rs'
      | None => allocated rs'
      end
  | _ :: rs' => allocated rs'
  end.

(** ** What the specification's words denote *)

(** A live record: a row of the table. *)
Definition live (task_id : Z) (σ : World) : Prop :=
  ∃ r, r ∈ rows (db σ) ∧ Task.id r = Some task_id.

(** The [k]..[k+n-1] slice of a result set, truncated at its end. *)
Definition window {A} (k n : nat) (l : list A) : list A := take n (drop k l).

(** The constraints of the table: the NOT NULL columns hold a value, the
    primary key is a key, and every key in the table came from the
    generator. *)
Definition row_ok (d : Database) (r : Task.t) : Prop :=
  (∃ i, Task.id r = Some i ∧ i < next_id d)
  ∧ is_Some (Task.title r) ∧ is_Some (Task.status r).

Definition wf (d : Database) : Prop :=
  Forall (row_ok d) (rows d) ∧ NoDup (Task.id <$> rows d).

(** A merge of one field: the supplied value, else the prior one. *)
Definition merged {A} (patch : option A) (prior : A) : A :=
  match patch with Some v => v | None => prior end.

(** A clock that never runs backwards. *)
Definition monotone (c : nat → datetime) : Prop :=
  ∀ n m, (n ≤ m)%nat → c n ≤ c m.

(** The 404 outcome of a lookup that found no row. *)
Definition not_found {A} (i : Z) (σ : World) : Result A * World :=
  (Raise (HTTPException HTTP_404_NOT_FOUND (TaskNotFound i)),
   with_call [CallGet i] σ).

(** The fields of [r] merged with the payload [u], stamped [now]. *)
Definition merge (u : TaskUpdate.t) (r : Task.t) (now : datetime) : Task.t :=
  Task.mk (Task.id r)
    (merged (TaskUpdate.title u) (Task.title r))
    (merged (TaskUpdate.description u) (Task.description r))
    (merged (TaskUpdate.status u) (Task.status r))
    (Task.created_at r) now.

(** The payload passes the status check of [update_task]. *)
Definition status_accepted (u : TaskUpdate.t) : bool :=
  match TaskUpdate.status u with
  | Some v => in_valid_statuses v
  | None => true
  end.

(** The instance that [create_task] inserts in the state [σ]. *)
Definition inserted (d : TaskCreate.t) (σ : World) : Task.t :=
  Task.mk (Some (next_id (db σ))) (Some (TaskCreate.title d))
    (TaskCreate.description d) (Some "pending"%string)
    (clock σ (ticks σ)) (clock σ (S (ticks σ))).

(** What one request can do to the state: nothing to the table, or one
    INSERT, or one UPDATE, or one DELETE.  The clock is never replaced and
    the readings taken are counted. *)
Inductive transition (σ σ' : World) : Prop :=
| tr_read :
    db σ' = db σ → (ticks σ ≤ ticks σ')%nat → clock σ' = clock σ →
    transition σ σ'
| tr_insert d :
    db σ' = mkDatabase (rows (db σ) ++ [inserted d σ]) (next_id (db σ) + 1) →
    ticks σ' = S (S (ticks σ)) → clock σ' = clock σ →
    transition σ σ'
| tr_update i u r :
    find_task i (rows (db σ)) = Some r →
    is_Some (Task.title (merge u r (clock σ (ticks σ)))) →
    is_Some (Task.status (merge u r (clock σ (ticks σ)))) →
    db σ' = mkDatabase
              (replace_row i (merge u r (clock σ (ticks σ))) (rows (db σ)))
              (next_id (db σ)) →
    ticks σ' = S (ticks σ) → clock σ' = clock σ →
    transition σ σ'
| tr_delete i :
    db σ' = mkDatabase (remove_row i (rows (db σ))) (next_id (db σ)) →
    ticks σ' = ticks σ → clock σ' = clock σ →
    transition σ σ'.

(** Every timestamp in the table is a reading of the clock, and the
    reading in [updated_at] was taken no earlier than the one in
    [created_at]. *)
Definition stamped (σ : World) : Prop :=
  ∀ r, r ∈ rows (db σ) →
    ∃ kc ku, (kc ≤ ku < ticks σ)%nat
             ∧ Task.created_at r = clock σ kc
             ∧ Task.updated_at r = clock σ ku.

(** A clock whose every reading is later than the ones before. *)
Definition advancing (c : nat → datetime) : Prop :=
  ∀ n m, (n < m)%nat → c n < c m.

(** The identifiers of the rows, in table order. *)
Definition ids (σ : World) : list (option Z) := Task.id <$> rows (db σ).

(** ** Worlds to run the handlers on *)

(** A clock that advances by one microsecond at every reading. *)
Definition ticking : nat → datetime := λ n, 1000 + Z.of_nat n.

(** A clock that is read several times within its resolution. *)
Definition stalled : nat → datetime := λ _, 1000.

(** A clock that is set back between readings. *)
Definition set_back : nat → datetime := λ n, 1000 - Z.of_nat n.

Definition three_tasks : list Request :=
  [ Create (TaskCreate.mk "Task 1" None);
    Create (TaskCreate.mk "Task 2" (Some "second"%string));
    Create (TaskCreate.mk "Task 3" None);
    Update 2 (TaskUpdate.mk None None (Some (Some "in_progress"%string))) ].

Definition demo : World := snd (run three_tasks (init ticking)).

(** The second row of [demo], and payloads to update it with. *)
Definition demo_row2 : Task.t :=
  Task.mk (Some 2) (Some "Task 2"%string) (Some "second"%string)
    (Some "in_progress"%string) 1002 1006.

Definition retitle : TaskUpdate.t :=
  TaskUpdate.mk (Some (Some "Updated"%string)) None None.

Definition bad_status : TaskUpdate.t :=
  TaskUpdate.mk None None (Some (Some "invalid_status"%string)).

(** [demo_row2] after [retitle], and the state that the update leaves. *)
Definition demo_row2_retitled : Task.t :=
  Task.mk (Some 2) (Some "Updated"%string) (Some "second"%string)
    (Some "in_progress"%string) 1002 1007.

Definition demo_retitled : World := snd (update_task 2 retitle demo).

(** One task created under the stalled clock, and under the clock that is
    set back. *)
Definition one_task : list Request := [Create (TaskCreate.mk "Task" None)].

Definition demo_stalled : World := snd (run one_task (init stalled)).
Definition demo_set_back : World := snd (run one_task (init set_back)).

(** A creation payload that also carries a [status]. *)
Definition body_with_status : gmap string JSON :=
  <["title"%string := JString "Test Task"]>
    (<["status"%string := JString "completed"]> ∅).

(** ** The rest of the models and routes *)

(** [class TaskResponse(BaseModel)]: the response model of the task
    routes.  [id], [title] and [status] are declared without [Optional]. *)
Module TaskResponse.
Record t := mk {
  id : Z;
  title : string;
  description : option string;
  status : string;
  created_at : datetime;
  updated_at : datetime
}.
End TaskResponse.

(** Validation of a returned [Task] against [response_model=TaskResponse];
    [None] is a response validation error. *)
Definition TaskResponse_validate (x : Task.t) : option TaskResponse.t :=
  match Task.id x, Task.title x, Task.status x with
  | Some i, Some t, Some s =>
      Some (TaskResponse.mk i t (Task.description x) s
              (Task.created_at x) (Task.updated_at x))
  | _, _, _ => None
  end.

(** A field [Optional[str] = Field(default=None, min_length=lo,
    max_length=hi)] of a request model: left out, [null], or a string
    within the bounds.  The outer [None] is a validation error. *)
Definition validate_optional_str (lo hi : nat) (v : option JSON)
  : option (option (option string)) :=
  match v with
  | None => Some None
  | Some JNull => Some (Some None)
  | Some (JString s) =>
      if bool_decide (lo ≤ String.length s ≤ hi)%nat
      then Some (Some (Some s)) else None
  | Some _ => None
  end.

(** [status: Optional[str] = None]: any string, or [null]. *)
Definition validate_optional_status (v : option JSON)
  : option (option (option string)) :=
  match v with
  | None => Some None
  | Some JNull => Some (Some None)
  | Some (JString s) => Some (Some (Some s))
  | Some _ => None
  end.

(** Validation of a JSON object against [TaskUpdate]. *)
Definition TaskUpdate_validate (body : gmap string JSON)
  : option TaskUpdate.t :=
  match validate_optional_str 1 200 (body !! "title"%string),
        validate_optional_str 0 1000 (body !! "description"%string),
        validate_optional_status (body !! "status"%string) with
  | Some t, Some d, Some s => Some (TaskUpdate.mk t d s)
  | _, _, _ => None
  end.

(** [PUT /tasks/{task_id}] *)
Definition put_task (task_id : Z) (body : gmap string JSON) : M Task.t :=
  match TaskUpdate_validate body with
  | Some task_update => update_task task_id task_update
  | None => raise RequestValidationError
  end.

(** Requests as they arrive, before validation. *)
Inductive HttpRequest :=
| POST_tasks (body : gmap string JSON)
| GET_tasks (query : gmap string string)
| GET_task (task_id : Z)
| PUT_task (task_id : Z) (body : gmap string JSON)
| DELETE_task (task_id : Z).

Definition serve (h : HttpRequest) (σ : World) : Response * World :=
  match h with
  | POST_tasks body => let (r, σ') := post_tasks body σ in (Created r, σ')
  | GET_tasks query => let (r, σ') := get_tasks query σ in (Listed r, σ')
  | GET_task i => let (r, σ') := get_task i σ in (Got r, σ')
  | PUT_task i body => let (r, σ') := put_task i body σ in (Updated r, σ')
  | DELETE_task i => let (r, σ') := delete_task i σ in (Deleted r, σ')
  end.

Fixpoint serve_all (hs : list HttpRequest) (σ : World)
  : list Response * World :=
  match hs with
  | [] => ([], σ)
  | h :: hs' =>
      let (r, σ') := serve h σ in
      let (rs, σ'') := serve_all hs' σ' in
      (r :: rs, σ'')
  end.

(** ** More of what the statements below speak of *)

(** The identifier a request is aimed at. *)
Definition target (q : Request) : option Z :=
  match q with
  | Update i _ | Delete i => Some i
  | _ => None
  end.

(** The response is an exception. *)
Definition failed (r : Response) : Prop :=
  match r with
  | Created (Raise _) | Listed (Raise _) | Got (Raise _)
  | Updated (Raise _) | Deleted (Raise _) => True
  | _ => False
  end.

(** The tasks a response carries. *)
Definition returned (r : Response) : list Task.t :=
  match r with
  | Created (Ok x) | Got (Ok x) | Updated (Ok x) => [x]
  | Listed (Ok l) => l
  | _ => []
  end.

(** The status of a row is one of the closed set. *)
Definition status_valid (r : Task.t) : Prop :=
  ∃ s, Task.status r = Some s ∧ s ∈ valid_statuses.

(** A row within the bounds that [TaskCreate] and [TaskUpdate] declare. *)
Definition within_schema (r : Task.t) : Prop :=
  (∃ t, Task.title r = Some t ∧ (1 ≤ String.length t ≤ 200)%nat)
  ∧ (∀ d, Task.description r = Some d → (String.length d ≤ 1000)%nat)
  ∧ status_valid r.

(** The rows with the status [s]. *)
Definition with_status (s : string) (l : list Task.t) : list Task.t :=
  List.filter (λ r, bool_decide (Task.status r = Some s)) l.

(** A body that [TaskCreate] accepts. *)
Definition creation_body_ok (body : gmap string JSON) : Prop :=
  (∃ t, body !! "title"%string = Some (JString t)
        ∧ (1 ≤ String.length t ≤ 200)%nat)
  ∧ (body !! "description"%string = None
     ∨ body !! "description"%string = Some JNull
     ∨ ∃ d, body !! "description"%string = Some (JString d)
            ∧ (String.length d ≤ 1000)%nat).

(** Payloads and bodies to run the routes on. *)
Definition complete : TaskUpdate.t :=
  TaskUpdate.mk None None (Some (Some "completed"%string)).

Definition body_no_title : gmap string JSON :=
  <["description"%string := JString "No title task"]> ∅.

Definition body_retitle : gmap string JSON :=
  <["title"%string := JString "Updated"]> ∅.

Definition http_demo : list HttpRequest :=
  [ POST_tasks body_with_status;
    PUT_task 1 (<["status"%string := JString "in_progress"]> ∅);
    POST_tasks body_no_title;
    PUT_task 1 (<["title"%string := JNull]> ∅) ].

(** The payload of a request is within the bounds of its model. *)
Definition payload_within_schema (q : Request) : Prop :=
  match q with
  | Create d =>
      (1 ≤ String.length (TaskCreate.title d) ≤ 200)%nat
      ∧ ∀ s, TaskCreate.description d = Some s → (String.length s ≤ 1000)%nat
  | Update _ u =>
      (∀ t, TaskUpdate.title u = Some (Some t) →
            (1 ≤ String.length t ≤ 200)%nat)
      ∧ ∀ s, TaskUpdate.description u = Some (Some s) →
             (String.length s ≤ 1000)%nat
  | _ => True
  end.

(** The one row that [http_demo] leaves. *)
Definition http_demo_row : Task.t :=
  Task.mk (Some 1) (Some "Test Task"%string) None
    (Some "in_progress"%string) 1000 1002.

(** ** Lemmas on the table *)

Lemma find_task_Some i l r :
  find_task i l = Some r → r ∈ l ∧ Task.id r = Some i.
Proof.
  unfold find_task. intros H. apply find_some in H as [Hin Hid].
  split; [by apply list_elem_of_In|].
  unfold has_id in Hid. by apply bool_decide_eq_true in Hid.
Qed.

Lemma find_task_None i l :
  find_task i l = None ↔ ∀ r, r ∈ l → Task.id r ≠ Some i.
Proof.
  unfold find_task. split.
  - intros H r Hr Hid.
    pose proof (find_none _ _ H r (proj1 (list_elem_of_In _ _) Hr)) as Hn.
    unfold has_id in Hn. by apply bool_decide_eq_false in Hn.
  - induction l as [|x l IH]; intros H; [done|]. simpl.
    destruct (has_id i x) eqn:E.
    + unfold has_id in E. apply bool_decide_eq_true in E.
      exfalso. apply (H x); [left | done].
    + apply IH. intros r Hr. apply H. by right.
Qed.

Lemma find_task_live i σ :
  live i σ ↔ ∃ r, find_task i (rows (db σ)) = Some r.
Proof.
  unfold live. split.
  - intros (r & Hr & Hid). destruct (find_task i (rows (db σ))) eqn:E; [eauto|].
    exfalso. by apply (proj1 (find_task_None _ _) E r).
  - intros [r Hr]. apply find_task_Some in Hr. eauto.
Qed.

Lemma find_task_not_live i σ :
  ¬ live i σ → find_task i (rows (db σ)) = None.
Proof.
  intros H. destruct (find_task i (rows (db σ))) eqn:E; [|done].
  exfalso. apply H, find_task_live. eauto.
Qed.

Lemma find_task_remove_row i l : find_task i (remove_row i l) = None.
Proof.
  apply find_task_None. intros r Hr Hid. unfold remove_row in Hr.
  apply list_elem_of_In, filter_In in Hr as [_ Hr].
  unfold has_id in Hr. rewrite bool_decide_eq_true_2 in Hr; done.
Qed.

Lemma find_task_replace_row i x l r :
  find_task i l = Some r → Task.id x = Some i →
  find_task i (replace_row i x l) = Some x.
Proof.
  unfold find_task, replace_row. intros H Hx.
  induction l as [|y l IH]; [done|]. simpl in *.
  destruct (has_id i y) eqn:E.
  - unfold has_id at 1. by rewrite bool_decide_eq_true_2.
  - rewrite E. by apply IH.
Qed.

Lemma find_task_app_new i l x :
  find_task i l = None → Task.id x = Some i →
  find_task i (l ++ [x]) = Some x.
Proof.
  unfold find_task. intros H Hx. induction l as [|y l IH]; simpl in *.
  - unfold has_id. by rewrite bool_decide_eq_true_2.
  - destruct (has_id i y); [done|]. by apply IH.
Qed.

Lemma replace_row_ids i x l :
  Task.id x = Some i → Task.id <$> replace_row i x l = Task.id <$> l.
Proof.
  intros Hx. unfold replace_row. induction l as [|y l IH]; [done|].
  cbn [map]. rewrite !fmap_cons, IH. f_equal.
  destruct (has_id i y) eqn:E; [|done].
  unfold has_id in E. apply bool_decide_eq_true in E. congruence.
Qed.

Lemma replace_row_elem i x l r :
  r ∈ replace_row i x l → r = x ∨ r ∈ l.
Proof.
  unfold replace_row. intros H. apply list_elem_of_In, in_map_iff in H.
  destruct H as (y & Hy & Hin). apply list_elem_of_In in Hin.
  destruct (has_id i y); subst; auto.
Qed.

Lemma remove_row_elem i l r : r ∈ remove_row i l → r ∈ l.
Proof.
  unfold remove_row. intros H. apply list_elem_of_In, filter_In in H as [H _].
  by apply list_elem_of_In.
Qed.

Lemma remove_row_ids i l :
  Task.id <$> remove_row i l = filter (λ o, o ≠ Some i) (Task.id <$> l).
Proof.
  unfold remove_row, has_id. induction l as [|y l IH]; [done|].
  rewrite fmap_cons. cbn [List.filter].
  destruct (decide (Task.id y = Some i)) as [E|E].
  - rewrite (bool_decide_eq_true_2 _ E). cbn [negb].
    by rewrite filter_cons_False by (intros H; by apply H).
  - rewrite (bool_decide_eq_false_2 _ E). cbn [negb].
    rewrite filter_cons_True by done. rewrite fmap_cons. by f_equal.
Qed.

(** ** The handlers, one equation each *)

Lemma get_task_eq i σ :
  get_task i σ =
  match find_task i (rows (db σ)) with
  | Some r => (Ok r, with_call [CallGet i] σ)
  | None => not_found i σ
  end.
Proof.
  unfold get_task, bind, session_get, not_found.
  by destruct (find_task i (rows (db σ))).
Qed.

Lemma delete_task_eq i σ :
  delete_task i σ =
  match find_task i (rows (db σ)) with
  | Some r => session_delete_commit r (with_call [CallGet i] σ)
  | None => not_found i σ
  end.
Proof.
  unfold delete_task, bind, session_get, not_found.
  by destruct (find_task i (rows (db σ))).
Qed.

Lemma update_task_missing i u σ :
  find_task i (rows (db σ)) = None → update_task i u σ = not_found i σ.
Proof.
  intros H. unfold update_task, bind, session_get, not_found. by rewrite H.
Qed.

Lemma filter_all_true {A} (f : A → bool) (l : list A) :
  (∀ x, f x = true) → List.filter f l = l.
Proof.
  intros H. induction l as [|x l IH]; [done|]. simpl. by rewrite H, IH.
Qed.

Lemma list_tasks_unfiltered f σ :
  truthy f = false →
  list_tasks f σ = (Ok (rows (db σ)), with_call [CallExec None] σ).
Proof.
  intros H. unfold list_tasks, bind, session_exec_all, ret.
  destruct f as [s|]; rewrite ?H; simpl; by rewrite filter_all_true.
Qed.

Lemma list_tasks_filtered s σ :
  s ∈ valid_statuses →
  list_tasks (Some s) σ =
  (Ok (List.filter (λ r, bool_decide (Task.status r = Some s)) (rows (db σ))),
   with_call [CallExec (Some s)] σ).
Proof.
  intros H. unfold valid_statuses in H.
  rewrite !elem_of_cons, elem_of_nil in H.
  destruct H as [->|[->|[->|[]]]]; reflexivity.
Qed.

Lemma list_tasks_rejected s σ :
  s ≠ ""%string → s ∉ valid_statuses →
  list_tasks (Some s) σ =
  (Raise (HTTPException HTTP_400_BAD_REQUEST InvalidStatusFilter), σ).
Proof.
  intros Hs Hv. unfold list_tasks, bind, truthy, in_valid_statuses, raise.
  by rewrite (bool_decide_eq_false_2 _ Hs), (bool_decide_eq_false_2 _ Hv).
Qed.

(** ** Listing *)

(** C3: for every state and every status [s] of the closed set, listing
    with the filter [s] returns exactly the rows whose status is [s], in
    table order, whatever the other rows hold, and listing without a filter
    returns all the rows in table order; the table is not changed. *)
Theorem list_tasks_filter_correct σ s :
  s ∈ valid_statuses →
  list_tasks (Some s) σ =
    (Ok (List.filter (λ r, bool_decide (Task.status r = Some s))
           (rows (db σ))),
     with_call [CallExec (Some s)] σ)
  ∧ list_tasks None σ = (Ok (rows (db σ)), with_call [CallExec None] σ).
Proof.
  intros H. split; [by apply list_tasks_filtered|].
  by apply list_tasks_unfiltered.
Qed.

(** The three rows of [demo], listed by the status in_progress. *)
Lemma list_tasks_filter_correct_witness :
  "in_progress"%string ∈ valid_statuses
  ∧ (list_tasks (Some "in_progress"%string) demo =
       (Ok (List.filter
              (λ r, bool_decide (Task.status r = Some "in_progress"%string))
              (rows (db demo))),
        with_call [CallExec (Some "in_progress"%string)] demo)
     ∧ list_tasks None demo =
         (Ok (rows (db demo)), with_call [CallExec None] demo)).
Proof.
  assert (H : "in_progress"%string ∈ valid_statuses)
    by (unfold valid_statuses; rewrite !elem_of_cons; auto).
  split; [exact H | exact (list_tasks_filter_correct demo "in_progress" H)].
Defined.

(** C9: an empty-string filter is outside the closed set of statuses, yet
    listing with it is not rejected: it succeeds with all the rows, as
    listing without a filter does. *)
Theorem list_tasks_empty_filter σ :
  (""%string ∉ valid_statuses)
  ∧ list_tasks (Some ""%string) σ = list_tasks None σ
  ∧ fst (list_tasks (Some ""%string) σ) = Ok (rows (db σ)).
Proof.
  split.
  - unfold valid_statuses. rewrite !elem_of_cons, elem_of_nil.
    intros [?|[?|[?|[]]]]; discriminate.
  - by rewrite !list_tasks_unfiltered.
Qed.

(** C4, as the claim has it: the window [1..1] of the three rows of [demo]
    is the second row alone, while the request with [offset=1] and
    [limit=1] is answered with all three rows. *)
Lemma get_tasks_no_window :
  fst (get_tasks (<["offset"%string := "1"%string]>
                    (<["limit"%string := "1"%string]> ∅)) demo)
  = Ok (rows (db demo))
  ∧ Ok (rows (db demo)) ≠ Ok (window 1 1 (rows (db demo))).
Proof.
  split; [vm_compute; reflexivity|]. intros H. vm_compute in H. discriminate H.
Qed.

(** C4, amended: [list_tasks] has no window.  Whatever [offset] and
    [limit] a request without status filter carries, the answer is the
    whole table, in table order, and the table is not changed. *)
Theorem get_tasks_whole_table σ (k n : string) :
  get_tasks (<["offset"%string := k]> (<["limit"%string := n]> ∅)) σ
  = (Ok (window 0 (length (rows (db σ))) (rows (db σ))),
     with_call [CallExec None] σ)
  ∧ window 0 (length (rows (db σ))) (rows (db σ)) = rows (db σ).
Proof.
  assert (Hw : window 0 (length (rows (db σ))) (rows (db σ)) = rows (db σ))
    by (unfold window; by rewrite drop_0, firstn_all).
  split; [|exact Hw]. unfold get_tasks.
  rewrite !lookup_insert_ne, lookup_empty by done.
  by rewrite Hw, list_tasks_unfiltered.
Qed.

(** ** Identifiers that match no row *)

(** C2: for an identifier that matches no row, [get_task], [update_task]
    and [delete_task] each raise the 404 exception and leave the database
    as it was; and once [delete_task] has succeeded on an identifier, the
    identifier matches no row, so that [get_task] and a second
    [delete_task] on it raise the 404 exception. *)
Theorem not_found_surfaced σ :
  (∀ i u, ¬ live i σ →
     (fst (get_task i σ)
        = Raise (HTTPException HTTP_404_NOT_FOUND (TaskNotFound i))
      ∧ db (snd (get_task i σ)) = db σ)
     ∧ (fst (update_task i u σ)
          = Raise (HTTPException HTTP_404_NOT_FOUND (TaskNotFound i))
        ∧ db (snd (update_task i u σ)) = db σ)
     ∧ (fst (delete_task i σ)
          = Raise (HTTPException HTTP_404_NOT_FOUND (TaskNotFound i))
        ∧ db (snd (delete_task i σ)) = db σ))
  ∧ (∀ i σ', delete_task i σ = (Ok tt, σ') →
       ¬ live i σ'
       ∧ fst (get_task i σ')
           = Raise (HTTPException HTTP_404_NOT_FOUND (TaskNotFound i))
       ∧ fst (delete_task i σ')
           = Raise (HTTPException HTTP_404_NOT_FOUND (TaskNotFound i))).
Proof.
  split.
  - intros i u H%find_task_not_live.
    rewrite get_task_eq, delete_task_eq, (update_task_missing _ _ _ H), H.
    by unfold not_found.
  - intros i σ' Hd. rewrite delete_task_eq in Hd.
    destruct (find_task i (rows (db σ))) as [r|] eqn:E; [|discriminate Hd].
    apply find_task_Some in E as [_ Hid].
    unfold session_delete_commit in Hd. rewrite Hid in Hd.
    injection Hd as <-.
    rewrite get_task_eq, delete_task_eq. simpl.
    rewrite find_task_remove_row. split; [|done].
    intros [r' Hr']%find_task_live. simpl in Hr'.
    by rewrite find_task_remove_row in Hr'.
Qed.

(** The identifier 99999 in [demo], and the second row of [demo] deleted. *)
Lemma not_found_surfaced_witness :
  (¬ live 99999 demo
   ∧ (fst (get_task 99999 demo)
        = Raise (HTTPException HTTP_404_NOT_FOUND (TaskNotFound 99999))
      ∧ db (snd (get_task 99999 demo)) = db demo)
   ∧ (fst (update_task 99999
             (TaskUpdate.mk (Some (Some "Updated"%string)) None None) demo)
        = Raise (HTTPException HTTP_404_NOT_FOUND (TaskNotFound 99999))
      ∧ db (snd (update_task 99999
                   (TaskUpdate.mk (Some (Some "Updated"%string)) None None)
                   demo)) = db demo)
   ∧ (fst (delete_task 99999 demo)
        = Raise (HTTPException HTTP_404_NOT_FOUND (TaskNotFound 99999))
      ∧ db (snd (delete_task 99999 demo)) = db demo))
  ∧ (delete_task 2 demo = (Ok tt, snd (delete_task 2 demo))
     ∧ ¬ live 2 (snd (delete_task 2 demo))
     ∧ fst (get_task 2 (snd (delete_task 2 demo)))
         = Raise (HTTPException HTTP_404_NOT_FOUND (TaskNotFound 2))
     ∧ fst (delete_task 2 (snd (delete_task 2 demo)))
         = Raise (HTTPException HTTP_404_NOT_FOUND (TaskNotFound 2))).
Proof.
  assert (H1 : ¬ live 99999 demo).
  { intros [r Hr]%find_task_live. vm_compute in Hr. discriminate Hr. }
  assert (H2 : delete_task 2 demo = (Ok tt, snd (delete_task 2 demo)))
    by (vm_compute; reflexivity).
  split.
  - split; [exact H1|].
    exact (proj1 (not_found_surfaced demo) 99999
             (TaskUpdate.mk (Some (Some "Updated"%string)) None None) H1).
  - split; [exact H2|].
    exact (proj2 (not_found_surfaced demo) 2 (snd (delete_task 2 demo)) H2).
Defined.

(** ** [update_task] on a row *)

Lemma setattr_items_dump u r :
  setattr_items (model_dump_exclude_unset u) r
  = merge u r (Task.updated_at r).
Proof.
  destruct u as [[t|] [d|] [s|]], r; reflexivity.
Qed.

Lemma dict_get_status u :
  dict_get "status" (model_dump_exclude_unset u) = TaskUpdate.status u.
Proof.
  destruct u as [[t|] [d|] [s|]]; reflexivity.
Qed.

Lemma update_task_rejected i u σ r :
  find_task i (rows (db σ)) = Some r → status_accepted u = false →
  update_task i u σ =
  (Raise (HTTPException HTTP_400_BAD_REQUEST InvalidStatus),
   with_call [CallGet i] σ).
Proof.
  intros Hr Hs. unfold update_task, bind, session_get. rewrite Hr.
  rewrite dict_get_status. unfold status_accepted in Hs.
  destruct (TaskUpdate.status u) as [v|]; [|discriminate Hs].
  by rewrite Hs.
Qed.

Lemma update_task_accepted i u σ r :
  find_task i (rows (db σ)) = Some r → status_accepted u = true →
  update_task i u σ =
  let x := merge u r (clock σ (ticks σ)) in
  match flush x (db σ) with
  | Some _ =>
      (Ok x,
       mkWorld (mkDatabase (replace_row i x (rows (db σ))) (next_id (db σ)))
         (clock σ) (S (ticks σ))
         (((calls σ ++ [CallGet i]) ++ [CallAdd; CallCommit])
          ++ [CallRefresh]))
  | None =>
      (Raise IntegrityError,
       mkWorld (db σ) (clock σ) (S (ticks σ))
         ((calls σ ++ [CallGet i]) ++ [CallAdd; CallCommit]))
  end.
Proof.
  intros Hr Hs. pose proof (find_task_Some _ _ _ Hr) as [_ Hid].
  unfold update_task, bind, session_get. rewrite Hr.
  rewrite dict_get_status, setattr_items_dump.
  unfold status_accepted in Hs.
  assert (Hc : (match TaskUpdate.status u with
                | Some v =>
                    if negb (in_valid_statuses v)
                    then raise (HTTPException HTTP_400_BAD_REQUEST InvalidStatus)
                    else ret tt
                | None => ret tt
                end) (with_call [CallGet i] σ)
               = (Ok tt, with_call [CallGet i] σ)).
  { destruct (TaskUpdate.status u) as [v|]; [|done]. by rewrite Hs. }
  rewrite Hc. clear Hc Hs. cbn zeta.
  unfold datetime_now, session_add_commit, session_refresh, flush, merge.
  destruct r as [ri rt rd rs rc ru], u as [ut ud us]. simpl in *. subst ri.
  destruct (merged ut rt) as [t|]; [|done].
  destruct (merged us rs) as [s|]; [|done]. simpl.
  erewrite find_task_replace_row; [done|exact Hr|done].
Qed.

(** ** [create_task] *)

Lemma create_task_eq d σ :
  ∃ r, find_task (next_id (db σ)) (rows (db σ) ++ [inserted d σ]) = Some r
       ∧ create_task d σ =
         (Ok r,
          mkWorld
            (mkDatabase (rows (db σ) ++ [inserted d σ]) (next_id (db σ) + 1))
            (clock σ) (S (S (ticks σ)))
            ((calls σ ++ [CallAdd; CallCommit]) ++ [CallRefresh])).
Proof.
  destruct (find_task (next_id (db σ)) (rows (db σ) ++ [inserted d σ]))
    as [r|] eqn:E.
  - exists r. split; [done|].
    unfold create_task, Task_init, get_current_time, datetime_now, bind, ret,
      session_add_commit, session_refresh, flush, Task.set_id.
    unfold inserted in E. cbn -[find_task]. by rewrite E.
  - exfalso. pose proof (proj1 (find_task_None _ _) E (inserted d σ)) as H.
    apply H; [|done]. apply elem_of_app. right. by left.
Qed.

Lemma create_task_fresh d σ :
  find_task (next_id (db σ)) (rows (db σ)) = None →
  create_task d σ =
  (Ok (inserted d σ),
   mkWorld (mkDatabase (rows (db σ) ++ [inserted d σ]) (next_id (db σ) + 1))
     (clock σ) (S (S (ticks σ)))
     ((calls σ ++ [CallAdd; CallCommit]) ++ [CallRefresh])).
Proof.
  intros H. destruct (create_task_eq d σ) as (r & Hr & ->).
  rewrite (find_task_app_new _ _ (inserted d σ) H) in Hr by done.
  by injection Hr as <-.
Qed.

Lemma wf_fresh d :
  wf d → find_task (next_id d) (rows d) = None.
Proof.
  intros [Hall _]. apply find_task_None. intros r Hr Hid.
  rewrite Forall_forall in Hall. destruct (Hall r Hr) as [(i & Hi & Hlt) _].
  rewrite Hid in Hi. injection Hi as <-. lia.
Qed.

(** ** One request, any request *)

Lemma handle_transition q σ : transition σ (snd (handle q σ)).
Proof.
  destruct q as [d|f|i|i u|i]; simpl.
  - destruct (create_task_eq d σ) as (r & _ & ->). simpl.
    by eapply tr_insert.
  - destruct (list_tasks f σ) as [res σ'] eqn:E. simpl.
    assert (Hσ : σ' = σ ∨ ∃ c, σ' = with_call c σ).
    { unfold list_tasks, bind, session_exec_all, ret, raise in E.
      destruct f as [s|]; [destruct (truthy (Some s));
        [destruct (negb (in_valid_statuses (Some s)))|]|];
        injection E as _ <-; eauto. }
    destruct Hσ as [->|[c ->]]; by apply tr_read.
  - rewrite get_task_eq. unfold not_found.
    destruct (find_task i (rows (db σ))); by apply tr_read.
  - destruct (find_task i (rows (db σ))) as [r|] eqn:E.
    + destruct (status_accepted u) eqn:Ea.
      * rewrite (update_task_accepted _ _ _ _ E Ea). cbn zeta.
        destruct (flush (merge u r (clock σ (ticks σ))) (db σ))
          as [p|] eqn:Ef; simpl.
        -- unfold flush in Ef.
           destruct (Task.title (merge u r (clock σ (ticks σ)))) eqn:E1;
             [|discriminate Ef].
           destruct (Task.status (merge u r (clock σ (ticks σ)))) eqn:E2;
             [|discriminate Ef].
           eapply (tr_update _ _ i u r); simpl; eauto.
        -- apply tr_read; simpl; [done|lia|done].
      * rewrite (update_task_rejected _ _ _ _ E Ea). by apply tr_read.
    + rewrite (update_task_missing _ _ _ E). by apply tr_read.
  - rewrite delete_task_eq. unfold not_found.
    destruct (find_task i (rows (db σ))) as [r|] eqn:E; [|by apply tr_read].
    apply find_task_Some in E as [_ Hid].
    unfold session_delete_commit. rewrite Hid. simpl.
    by eapply (tr_delete _ _ i).
Qed.

Lemma run_invariant (P : World → Prop) :
  (∀ σ σ', P σ → transition σ σ' → P σ') →
  ∀ qs σ, P σ → P (snd (run qs σ)).
Proof.
  intros Hstep qs. induction qs as [|q qs IH]; intros σ Hσ; [done|].
  simpl. pose proof (handle_transition q σ) as Ht.
  destruct (handle q σ) as [r σ1]. simpl in Ht.
  specialize (IH σ1 (Hstep _ _ Hσ Ht)).
  destruct (run qs σ1) as [rs σ2]. exact IH.
Qed.

(** ** Invariants of the table *)

Lemma merge_row_ok d u r now i :
  r ∈ rows d → Forall (row_ok d) (rows d) → Task.id r = Some i →
  is_Some (Task.title (merge u r now)) →
  is_Some (Task.status (merge u r now)) →
  row_ok d (merge u r now).
Proof.
  intros Hr Hall Hid Ht Hs. rewrite Forall_forall in Hall.
  destruct (Hall r Hr) as [Hi _]. by repeat split.
Qed.

Lemma wf_transition σ σ' : wf (db σ) → transition σ σ' → wf (db σ').
Proof.
  intros [Hall Hnd] Ht. pose proof Hall as Hall'.
  rewrite Forall_forall in Hall'.
  destruct Ht as [Hdb _ _|d Hdb _ _|i u r Hr Htt Hst Hdb _ _|i Hdb _ _];
    rewrite Hdb; unfold wf; simpl.
  - done.
  - split.
    + apply Forall_app. split.
      * apply Forall_forall. intros r Hr.
        destruct (Hall' r Hr) as [(i & Hi & Hlt) Hrest].
        split; [|done]. exists i. split; [done|simpl; lia].
      * apply Forall_singleton. repeat split; simpl; eauto.
        exists (next_id (db σ)). split; [done|simpl; lia].
    + rewrite fmap_app. apply NoDup_app. repeat split; [done| |].
      * intros o Ho Ho'. apply list_elem_of_fmap in Ho as (r & -> & Hr).
        destruct (Hall' r Hr) as [(i & Hi & Hlt) _].
        simpl in Ho'. apply list_elem_of_singleton in Ho'.
        rewrite Hi in Ho'. injection Ho' as ->. lia.
      * simpl. apply NoDup_singleton.
  - apply find_task_Some in Hr as [Hr Hid]. split.
    + apply Forall_forall. intros r' Hr'.
      apply replace_row_elem in Hr' as [->|Hr'].
      * destruct (merge_row_ok (db σ) u r (clock σ (ticks σ)) i)
          as [Hi Hrest]; try done.
      * destruct (Hall' r' Hr') as [Hi Hrest]. done.
    + by rewrite replace_row_ids.
  - split.
    + apply Forall_forall. intros r Hr%remove_row_elem.
      destruct (Hall' r Hr) as [Hi Hrest]. done.
    + rewrite remove_row_ids. by apply NoDup_filter.
Qed.

Lemma wf_init c : wf (db (init c)).
Proof. split; simpl; [apply Forall_nil_2 | apply NoDup_nil_2]. Qed.

Lemma wf_reachable c qs : wf (db (snd (run qs (init c)))).
Proof.
  apply (run_invariant (λ σ, wf (db σ))); [apply wf_transition|apply wf_init].
Qed.

Lemma clock_reachable c qs : clock (snd (run qs (init c))) = c.
Proof.
  apply (run_invariant (λ σ, clock σ = c)); [|done].
  intros σ σ' H Ht. destruct Ht; congruence.
Qed.

Lemma stamped_transition σ σ' : stamped σ → transition σ σ' → stamped σ'.
Proof.
  intros Hs Ht r' Hr'.
  destruct Ht as [Hdb Hk Hc|d Hdb Hk Hc|i u r Hr Htt Hst Hdb Hk Hc|i Hdb Hk Hc];
    rewrite Hdb in Hr'; simpl in Hr'; rewrite Hc, ?Hk.
  - destruct (Hs r' Hr') as (kc & ku & Hle & H1 & H2).
    exists kc, ku. repeat split; try done; lia.
  - apply elem_of_app in Hr' as [Hr'|Hr'].
    + destruct (Hs r' Hr') as (kc & ku & Hle & H1 & H2).
      exists kc, ku. repeat split; try done; lia.
    + apply list_elem_of_singleton in Hr' as ->.
      exists (ticks σ), (S (ticks σ)). repeat split; simpl; lia.
  - apply replace_row_elem in Hr' as [->|Hr'].
    + apply find_task_Some in Hr as [Hr _].
      destruct (Hs r Hr) as (kc & ku & Hle & H1 & H2).
      exists kc, (ticks σ). repeat split; simpl; try done; lia.
    + destruct (Hs r' Hr') as (kc & ku & Hle & H1 & H2).
      exists kc, ku. repeat split; try done; lia.
  - apply remove_row_elem in Hr'.
    destruct (Hs r' Hr') as (kc & ku & Hle & H1 & H2).
    exists kc, ku. repeat split; try done; lia.
Qed.

Lemma stamped_reachable c qs : stamped (snd (run qs (init c))).
Proof.
  apply (run_invariant stamped); [apply stamped_transition|].
  intros r Hr. simpl in Hr. by apply elem_of_nil in Hr.
Qed.

Lemma update_task_Ok i u σ x σ' :
  update_task i u σ = (Ok x, σ') →
  ∃ r, find_task i (rows (db σ)) = Some r
       ∧ status_accepted u = true
       ∧ x = merge u r (clock σ (ticks σ))
       ∧ is_Some (Task.title x) ∧ is_Some (Task.status x)
       ∧ db σ' = mkDatabase (replace_row i x (rows (db σ))) (next_id (db σ)).
Proof.
  intros H. destruct (find_task i (rows (db σ))) as [r|] eqn:E.
  - destruct (status_accepted u) eqn:Ea.
    + rewrite (update_task_accepted _ _ _ _ E Ea) in H. cbn zeta in H.
      destruct (flush (merge u r (clock σ (ticks σ))) (db σ)) as [p|] eqn:Ef;
        [|discriminate H].
      injection H as <- <-. exists r. unfold flush in Ef.
      destruct (Task.title (merge u r (clock σ (ticks σ)))) eqn:E1;
        [|discriminate Ef].
      destruct (Task.status (merge u r (clock σ (ticks σ)))) eqn:E2;
        [|discriminate Ef].
      repeat split; eauto.
    + rewrite (update_task_rejected _ _ _ _ E Ea) in H. discriminate H.
  - rewrite (update_task_missing _ _ _ E) in H. discriminate H.
Qed.

Lemma update_task_Raise i u σ e σ' :
  update_task i u σ = (Raise e, σ') → db σ' = db σ.
Proof.
  intros H. destruct (find_task i (rows (db σ))) as [r|] eqn:Er.
  - destruct (status_accepted u) eqn:Ea.
    + rewrite (update_task_accepted _ _ _ _ Er Ea) in H. cbn zeta in H.
      destruct (flush (merge u r (clock σ (ticks σ))) (db σ));
        [discriminate H|]. by injection H as _ <-.
    + rewrite (update_task_rejected _ _ _ _ Er Ea) in H.
      by injection H as _ <-.
  - rewrite (update_task_missing _ _ _ Er) in H. unfold not_found in H.
    by injection H as _ <-.
Qed.

Lemma find_task_replace_row_ne i j x l :
  Task.id x = Some i → j ≠ i →
  find_task j (replace_row i x l) = find_task j l.
Proof.
  intros Hx Hne. unfold find_task, replace_row.
  induction l as [|y l IH]; [done|]. cbn [map find].
  destruct (has_id i y) eqn:E.
  - unfold has_id in E. apply bool_decide_eq_true in E.
    assert (Hjx : has_id j x = false)
      by (apply bool_decide_eq_false_2; congruence).
    assert (Hjy : has_id j y = false)
      by (apply bool_decide_eq_false_2; congruence).
    rewrite Hjx, Hjy. apply IH.
  - by rewrite IH.
Qed.

Lemma not_in_valid_statuses v :
  v ∉ Some <$> valid_statuses → in_valid_statuses v = false.
Proof.
  intros H. destruct v as [s|]; [|done]. simpl.
  apply bool_decide_eq_false_2. intros Hs. apply H.
  by apply list_elem_of_fmap_2.
Qed.

Lemma in_valid_statuses_true v :
  v ∈ Some <$> valid_statuses → in_valid_statuses v = true.
Proof.
  intros (s & -> & Hs)%list_elem_of_fmap. simpl.
  by apply bool_decide_eq_true_2.
Qed.

(** ** Values outside the closed set of statuses *)

(** C5, as the claim has it: [update_task] with a status outside the
    closed set is not always answered 400, and not before the database is
    queried.  On an identifier that matches no row the answer is 404; on a
    row, the 400 comes after the lookup [session.get]. *)
Lemma update_task_bad_status_after_lookup :
  (Some "invalid_status"%string ∉ Some <$> valid_statuses)
  ∧ fst (update_task 99999 bad_status demo)
    = Raise (HTTPException HTTP_404_NOT_FOUND (TaskNotFound 99999))
  ∧ fst (update_task 2 bad_status demo)
    = Raise (HTTPException HTTP_400_BAD_REQUEST InvalidStatus)
  ∧ calls (snd (update_task 2 bad_status demo)) = calls demo ++ [CallGet 2].
Proof.
  split; [|by vm_compute].
  unfold valid_statuses. rewrite !fmap_cons, fmap_nil.
  rewrite !elem_of_cons, elem_of_nil. intros [?|[?|[?|[]]]]; discriminate.
Qed.

(** C5, amended: [list_tasks] with a non-empty filter outside the closed
    set raises the 400 exception without any call on the session, so the
    state is as before.  [update_task] on a live record, with a payload
    that sets [status] to a value outside the closed set, raises the 400
    exception after the lookup and before any write: the database is as
    before.  The session raises no HTTP exception of its own. *)
Theorem invalid_status_rejected σ :
  (∀ s, s ≠ ""%string → s ∉ valid_statuses →
     list_tasks (Some s) σ =
     (Raise (HTTPException HTTP_400_BAD_REQUEST InvalidStatusFilter), σ))
  ∧ (∀ i u v, live i σ → TaskUpdate.status u = Some v →
       v ∉ Some <$> valid_statuses →
       update_task i u σ =
       (Raise (HTTPException HTTP_400_BAD_REQUEST InvalidStatus),
        with_call [CallGet i] σ)
       ∧ db (with_call [CallGet i] σ) = db σ)
  ∧ (∀ code detail j st x,
       fst (session_get j σ) ≠ Raise (HTTPException code detail)
       ∧ fst (session_exec_all st σ) ≠ Raise (HTTPException code detail)
       ∧ fst (session_add_commit x σ) ≠ Raise (HTTPException code detail)
       ∧ fst (session_refresh x σ) ≠ Raise (HTTPException code detail)
       ∧ fst (session_delete_commit x σ) ≠ Raise (HTTPException code detail)).
Proof.
  split; [|split].
  - intros s Hs Hv. by apply list_tasks_rejected.
  - intros i u v [r Hr]%find_task_live Hu Hv. split; [|done].
    apply (update_task_rejected _ _ _ r Hr).
    unfold status_accepted. rewrite Hu. by apply not_in_valid_statuses.
  - intros code detail j st x.
    unfold session_get, session_exec_all, session_add_commit,
      session_refresh, session_delete_commit.
    repeat split; try done.
    + by destruct (flush x (db σ)) as [[??]|].
    + destruct (Task.id x) as [k|]; [|done].
      by destruct (find_task k (rows (db σ))).
    + by destruct (Task.id x).
Qed.

(** The value invalid_status, as a filter and as the new status of the
    second row of [demo]. *)
Lemma invalid_status_rejected_witness :
  ("invalid_status"%string ≠ ""%string
   ∧ ("invalid_status"%string ∉ valid_statuses)
   ∧ list_tasks (Some "invalid_status"%string) demo =
     (Raise (HTTPException HTTP_400_BAD_REQUEST InvalidStatusFilter), demo))
  ∧ (live 2 demo
     ∧ TaskUpdate.status bad_status = Some (Some "invalid_status"%string)
     ∧ (Some "invalid_status"%string ∉ Some <$> valid_statuses)
     ∧ update_task 2 bad_status demo =
       (Raise (HTTPException HTTP_400_BAD_REQUEST InvalidStatus),
        with_call [CallGet 2] demo)).
Proof.
  assert (H1 : "invalid_status"%string ≠ ""%string) by discriminate.
  assert (H2 : "invalid_status"%string ∉ valid_statuses).
  { unfold valid_statuses. rewrite !elem_of_cons, elem_of_nil.
    intros [?|[?|[?|[]]]]; discriminate. }
  assert (H3 : live 2 demo).
  { exists demo_row2. split; [|reflexivity].
    vm_compute. right. left. }
  assert (H4 : Some "invalid_status"%string ∉ Some <$> valid_statuses).
  { unfold valid_statuses. rewrite !fmap_cons, fmap_nil.
    rewrite !elem_of_cons, elem_of_nil. intros [?|[?|[?|[]]]]; discriminate. }
  split.
  - split; [exact H1|]. split; [exact H2|].
    exact (proj1 (invalid_status_rejected demo) _ H1 H2).
  - split; [exact H3|]. split; [reflexivity|]. split; [exact H4|].
    exact (proj1 (proj1 (proj2 (invalid_status_rejected demo))
                    2 bad_status _ H3 eq_refl H4)).
Defined.

(** ** Updates *)

(** C1: for a live task [r] with identifier [i] and any payload [u],
    an update that succeeds returns the record whose [title],
    [description] and [status] are the payload's where the payload sets
    them and [r]'s where it does not, with [r]'s [id] and [created_at];
    that record replaces [r] in its place in the table, and the lookup of
    any other identifier gives what it gave before.  The update succeeds
    whenever the payload does not set [title] to null and sets [status],
    if at all, to a status of the closed set; an update that fails leaves
    the database as it was. *)
Theorem update_task_merges σ i u r :
  find_task i (rows (db σ)) = Some r →
  (TaskUpdate.title u ≠ Some None →
   (∀ v, TaskUpdate.status u = Some v → v ∈ Some <$> valid_statuses) →
   is_Some (Task.title r) → is_Some (Task.status r) →
   ∃ x σ', update_task i u σ = (Ok x, σ'))
  ∧ (∀ x σ', update_task i u σ = (Ok x, σ') →
       Task.title x = merged (TaskUpdate.title u) (Task.title r)
       ∧ Task.description x
         = merged (TaskUpdate.description u) (Task.description r)
       ∧ Task.status x = merged (TaskUpdate.status u) (Task.status r)
       ∧ Task.id x = Task.id r
       ∧ Task.created_at x = Task.created_at r
       ∧ rows (db σ') = replace_row i x (rows (db σ))
       ∧ next_id (db σ') = next_id (db σ)
       ∧ find_task i (rows (db σ')) = Some x
       ∧ ∀ j, j ≠ i →
           find_task j (rows (db σ')) = find_task j (rows (db σ)))
  ∧ (∀ e σ', update_task i u σ = (Raise e, σ') → db σ' = db σ).
Proof.
  intros Hr. pose proof (find_task_Some _ _ _ Hr) as [_ Hid].
  split; [|split; [|apply update_task_Raise]].
  - intros Ht Hs [t Hrt] [s Hrs].
    assert (Ea : status_accepted u = true).
    { unfold status_accepted. destruct (TaskUpdate.status u) as [v|] eqn:E;
        [|done]. by apply in_valid_statuses_true, Hs. }
    rewrite (update_task_accepted _ _ _ _ Hr Ea). cbn zeta.
    unfold flush, merge. cbn [Task.title Task.status Task.id].
    destruct (TaskUpdate.title u) as [[t'|]|]; [| done |];
      cbn [merged]; rewrite ?Hrt.
    all: destruct (TaskUpdate.status u) as [[s'|]|] eqn:Es; cbn [merged];
      rewrite ?Hrs, ?Hid; eauto.
    all: exfalso; specialize (Hs None eq_refl);
      apply list_elem_of_fmap in Hs as (? & ? & _); discriminate.
  - intros x σ' H.
    apply update_task_Ok in H as (r' & Hr' & _ & -> & _ & _ & Hdb).
    rewrite Hr in Hr'. injection Hr' as <-. rewrite Hdb. simpl.
    repeat split.
    + by eapply find_task_replace_row.
    + intros j Hj. by apply find_task_replace_row_ne.
Qed.

(** The second row of [demo], given a new title, and given a status outside
    the closed set. *)
Lemma update_task_merges_witness :
  find_task 2 (rows (db demo)) = Some demo_row2
  ∧ TaskUpdate.title retitle ≠ Some None
  ∧ (∀ v, TaskUpdate.status retitle = Some v → v ∈ Some <$> valid_statuses)
  ∧ is_Some (Task.title demo_row2) ∧ is_Some (Task.status demo_row2)
  ∧ (∃ x σ', update_task 2 retitle demo = (Ok x, σ'))
  ∧ update_task 2 retitle demo = (Ok demo_row2_retitled, demo_retitled)
  ∧ Task.title demo_row2_retitled = Some "Updated"%string
  ∧ Task.description demo_row2_retitled = Task.description demo_row2
  ∧ Task.status demo_row2_retitled = Task.status demo_row2
  ∧ Task.id demo_row2_retitled = Task.id demo_row2
  ∧ Task.created_at demo_row2_retitled = Task.created_at demo_row2
  ∧ find_task 2 (rows (db demo_retitled)) = Some demo_row2_retitled
  ∧ update_task 2 bad_status demo
    = (Raise (HTTPException HTTP_400_BAD_REQUEST InvalidStatus),
       with_call [CallGet 2] demo)
  ∧ db (with_call [CallGet 2] demo) = db demo.
Proof.
  assert (H1 : find_task 2 (rows (db demo)) = Some demo_row2)
    by (vm_compute; reflexivity).
  assert (H2 : TaskUpdate.title retitle ≠ Some None) by discriminate.
  assert (H3 : ∀ v, TaskUpdate.status retitle = Some v →
                    v ∈ Some <$> valid_statuses) by discriminate.
  assert (H4 : is_Some (Task.title demo_row2)) by (eexists; reflexivity).
  assert (H5 : is_Some (Task.status demo_row2)) by (eexists; reflexivity).
  assert (H6 : update_task 2 retitle demo
               = (Ok demo_row2_retitled, demo_retitled))
    by (vm_compute; reflexivity).
  destruct (update_task_merges demo 2 retitle demo_row2 H1)
    as (Hok & Hframe & _).
  assert (H7 : update_task 2 bad_status demo
               = (Raise (HTTPException HTTP_400_BAD_REQUEST InvalidStatus),
                  with_call [CallGet 2] demo))
    by (vm_compute; reflexivity).
  destruct (Hframe _ _ H6) as (F1 & F2 & F3 & F4 & F5 & _ & _ & F8 & _).
  pose proof (proj2 (proj2 (update_task_merges demo 2 bad_status demo_row2 H1))
                _ _ H7) as F9.
  exact (conj H1 (conj H2 (conj H3 (conj H4 (conj H5
           (conj (Hok H2 H3 H4 H5) (conj H6 (conj F1 (conj F2 (conj F3
              (conj F4 (conj F5 (conj F8 (conj H7 F9)))))))))))))).
Defined.

(** ** Timestamps *)

(** C6, as the claim has it: under a clock that is read twice within its
    resolution, a successful update leaves [updated_at] at its prior
    value; under a clock that is set back between two readings, the task
    that [create_task] stores has [created_at] later than [updated_at]. *)
Lemma update_task_stalled_clock :
  (find_task 1 (rows (db demo_stalled))
     = Some (Task.mk (Some 1) (Some "Task"%string) None
               (Some "pending"%string) 1000 1000)
   ∧ fst (update_task 1 retitle demo_stalled)
     = Ok (Task.mk (Some 1) (Some "Updated"%string) None
             (Some "pending"%string) 1000 1000)
   ∧ ¬ (1000 < 1000))
  ∧ (rows (db demo_set_back)
       = [Task.mk (Some 1) (Some "Task"%string) None
            (Some "pending"%string) 1000 999]
     ∧ ¬ (1000 ≤ 999)).
Proof.
  repeat split; try (vm_compute; reflexivity); lia.
Qed.

(** C6, amended: in a state reached by any sequence of requests from the
    empty table, a successful update leaves [created_at] as it was and
    sets [updated_at] to the reading of the clock that the update takes;
    that is later than the prior [updated_at] when every reading of the
    clock is later than the readings before it.  When the clock never runs
    backwards, every row has [created_at <= updated_at]. *)
Theorem update_task_timestamps c qs :
  (∀ i u r x σ',
     find_task i (rows (db (snd (run qs (init c))))) = Some r →
     update_task i u (snd (run qs (init c))) = (Ok x, σ') →
     Task.created_at x = Task.created_at r
     ∧ Task.updated_at x = c (ticks (snd (run qs (init c))))
     ∧ (advancing c → Task.updated_at r < Task.updated_at x))
  ∧ (monotone c →
     ∀ r, r ∈ rows (db (snd (run qs (init c)))) →
          Task.created_at r ≤ Task.updated_at r).
Proof.
  pose proof (stamped_reachable c qs) as Hs.
  pose proof (clock_reachable c qs) as Hc.
  set (σ := snd (run qs (init c))) in *. split.
  - intros i u r x σ' Hr H.
    apply update_task_Ok in H as (r' & Hr' & _ & -> & _).
    rewrite Hr in Hr'. injection Hr' as <-. simpl. rewrite Hc.
    repeat split. intros Hadv.
    apply find_task_Some in Hr as [Hr _].
    destruct (Hs r Hr) as (kc & ku & Hle & _ & ->). rewrite Hc.
    apply Hadv. lia.
  - intros Hm r Hr. destruct (Hs r Hr) as (kc & ku & Hle & -> & ->).
    rewrite Hc. apply Hm. lia.
Qed.

(** The second row of [demo], updated under the ticking clock. *)
Lemma update_task_timestamps_witness :
  find_task 2 (rows (db (snd (run three_tasks (init ticking)))))
    = Some demo_row2
  ∧ update_task 2 retitle (snd (run three_tasks (init ticking)))
    = (Ok demo_row2_retitled, demo_retitled)
  ∧ advancing ticking
  ∧ monotone ticking
  ∧ Task.created_at demo_row2_retitled = Task.created_at demo_row2
  ∧ Task.updated_at demo_row2 < Task.updated_at demo_row2_retitled
  ∧ Task.created_at demo_row2 ≤ Task.updated_at demo_row2.
Proof.
  assert (H1 : find_task 2 (rows (db (snd (run three_tasks (init ticking)))))
               = Some demo_row2) by (vm_compute; reflexivity).
  assert (H2 : update_task 2 retitle (snd (run three_tasks (init ticking)))
               = (Ok demo_row2_retitled, demo_retitled))
    by (vm_compute; reflexivity).
  assert (H3 : advancing ticking) by (intros n m H; unfold ticking; lia).
  assert (H4 : monotone ticking) by (intros n m H; unfold ticking; lia).
  destruct (update_task_timestamps ticking three_tasks) as [Hu Hinv].
  destruct (Hu 2 retitle demo_row2 _ _ H1 H2) as (T1 & _ & T3).
  exact (conj H1 (conj H2 (conj H3 (conj H4 (conj T1 (conj (T3 H3)
           (Hinv H4 _ (proj1 (find_task_Some 2 _ _ H1))))))))).
Defined.

(** ** Identifiers *)

Lemma run_cons q qs σ :
  run (q :: qs) σ =
  (fst (handle q σ) :: fst (run qs (snd (handle q σ))),
   snd (run qs (snd (handle q σ)))).
Proof.
  simpl. destruct (handle q σ) as [r σ1]. simpl.
  by destruct (run qs σ1) as [rs σ2].
Qed.

Lemma transition_next_id σ σ' :
  transition σ σ' → next_id (db σ) ≤ next_id (db σ').
Proof.
  intros [Hdb _ _|d Hdb _ _|i u r _ _ _ Hdb _ _|i Hdb _ _];
    rewrite Hdb; simpl; lia.
Qed.

Lemma next_id_run qs σ : next_id (db σ) ≤ next_id (db (snd (run qs σ))).
Proof.
  apply (run_invariant (λ σ', next_id (db σ) ≤ next_id (db σ'))); [|lia].
  intros σ1 σ2 H Ht. apply transition_next_id in Ht. lia.
Qed.

Lemma handle_allocated q σ rs :
  allocated (fst (handle q σ) :: rs) =
  match q with
  | Create _ => next_id (db σ) :: allocated rs
  | _ => allocated rs
  end.
Proof.
  destruct q as [d|f|i|i u|i]; simpl.
  - destruct (create_task_eq d σ) as (r & Hr & ->). simpl.
    apply find_task_Some in Hr as [_ Hid]. by rewrite Hid.
  - by destruct (list_tasks f σ).
  - by destruct (get_task i σ).
  - by destruct (update_task i u σ).
  - by destruct (delete_task i σ).
Qed.

Lemma handle_create_next_id d σ :
  next_id (db (snd (handle (Create d) σ))) = next_id (db σ) + 1.
Proof.
  simpl. by destruct (create_task_eq d σ) as (r & _ & ->).
Qed.

Lemma allocated_run qs σ :
  NoDup (allocated (fst (run qs σ)))
  ∧ ∀ i, i ∈ allocated (fst (run qs σ)) →
         next_id (db σ) ≤ i < next_id (db (snd (run qs σ))).
Proof.
  revert σ. induction qs as [|q qs IH]; intros σ.
  - simpl. split; [apply NoDup_nil_2|]. intros i Hi. by apply elem_of_nil in Hi.
  - rewrite run_cons. cbn [fst snd]. rewrite handle_allocated.
    destruct (IH (snd (handle q σ))) as [Hnd Hb].
    pose proof (transition_next_id _ _ (handle_transition q σ)) as Hle.
    assert (Hrest : ∀ i, i ∈ allocated (fst (run qs (snd (handle q σ)))) →
              next_id (db σ) ≤ i
                < next_id (db (snd (run qs (snd (handle q σ)))))).
    { intros i Hi. specialize (Hb i Hi). lia. }
    destruct q as [d|f|j|j u|j]; try (split; [exact Hnd|exact Hrest]).
    pose proof (handle_create_next_id d σ) as Hn.
    pose proof (next_id_run qs (snd (handle (Create d) σ))) as Hm.
    split.
    + apply NoDup_cons. split; [|exact Hnd].
      intros Hi. specialize (Hb _ Hi). lia.
    + intros i [->|Hi]%elem_of_cons; [lia|by apply Hrest].
Qed.

Lemma remove_row_absent i l : find_task i l = None → remove_row i l = l.
Proof.
  intros H. unfold remove_row. induction l as [|y l IH]; [done|].
  unfold find_task in *. simpl in *.
  destruct (has_id i y); [discriminate H|]. simpl. by rewrite IH.
Qed.

(** What each request does to the identifiers of the rows. *)
Lemma handle_ids q σ :
  ids (snd (handle q σ)) =
  match q with
  | Create _ => ids σ ++ [Some (next_id (db σ))]
  | Delete i => filter (λ o, o ≠ Some i) (ids σ)
  | _ => ids σ
  end.
Proof.
  unfold ids. destruct q as [d|f|i|i u|i].
  - simpl. destruct (create_task_eq d σ) as (r & _ & ->). simpl.
    by rewrite fmap_app.
  - pose proof (handle_transition (List f) σ) as Ht. simpl in *.
    destruct (list_tasks f σ) as [res σ'] eqn:E. simpl in *.
    unfold list_tasks, bind, session_exec_all, ret, raise in E.
    destruct f as [s|]; [destruct (truthy (Some s));
      [destruct (negb (in_valid_statuses (Some s)))|]|];
      by injection E as _ <-.
  - simpl. rewrite get_task_eq. unfold not_found.
    by destruct (find_task i (rows (db σ))).
  - simpl. destruct (update_task i u σ) as [[x|e] σ'] eqn:E; simpl.
    + apply update_task_Ok in E as (r & Hr & _ & -> & _ & _ & ->). simpl.
      apply find_task_Some in Hr as [_ Hid]. by rewrite replace_row_ids.
    + by rewrite (update_task_Raise _ _ _ _ _ E).
  - simpl. rewrite delete_task_eq. unfold not_found.
    destruct (find_task i (rows (db σ))) as [r|] eqn:E.
    + apply find_task_Some in E as [_ Hid].
      unfold session_delete_commit. rewrite Hid. simpl.
      apply remove_row_ids.
    + simpl. rewrite <- remove_row_ids. by rewrite remove_row_absent.
Qed.

(** C8: after any sequence of requests from the empty table, no two rows
    share an [id]; the identifiers that the successful creations of the
    sequence handed out are pairwise distinct, whatever was deleted in
    between; and a further request leaves the identifiers of the rows as
    they are, in their places, except that a creation appends the
    generator's next identifier and a deletion takes its identifier out. *)
Theorem identifiers_unique_stable c qs :
  NoDup (ids (snd (run qs (init c))))
  ∧ NoDup (allocated (fst (run qs (init c))))
  ∧ (∀ q, ids (snd (handle q (snd (run qs (init c))))) =
          match q with
          | Create _ =>
              ids (snd (run qs (init c)))
              ++ [Some (next_id (db (snd (run qs (init c)))))]
          | Delete i => filter (λ o, o ≠ Some i) (ids (snd (run qs (init c))))
          | _ => ids (snd (run qs (init c)))
          end)
  ∧ (∀ i u x σ',
       update_task i u (snd (run qs (init c))) = (Ok x, σ') →
       Task.id x = Some i).
Proof.
  split; [apply wf_reachable|]. split; [apply allocated_run|].
  split; [intros q; apply handle_ids|].
  intros i u x σ' H.
  apply update_task_Ok in H as (r & Hr & _ & -> & _). simpl.
  by apply find_task_Some in Hr as [_ Hid].
Qed.

(** The second row of [demo] keeps the identifier 2 when it is updated. *)
Lemma identifiers_unique_stable_witness :
  update_task 2 retitle (snd (run three_tasks (init ticking)))
    = (Ok demo_row2_retitled, demo_retitled)
  ∧ Task.id demo_row2_retitled = Some 2.
Proof.
  assert (H : update_task 2 retitle (snd (run three_tasks (init ticking)))
              = (Ok demo_row2_retitled, demo_retitled))
    by (vm_compute; reflexivity).
  exact (conj H
           (proj2 (proj2 (proj2 (identifiers_unique_stable ticking three_tasks)))
              2 retitle _ _ H)).
Defined.

(** ** Creation *)

Lemma create_task_reachable c qs d :
  create_task d (snd (run qs (init c))) =
  (Ok (inserted d (snd (run qs (init c)))),
   mkWorld
     (mkDatabase
        (rows (db (snd (run qs (init c))))
         ++ [inserted d (snd (run qs (init c)))])
        (next_id (db (snd (run qs (init c)))) + 1))
     (clock (snd (run qs (init c))))
     (S (S (ticks (snd (run qs (init c))))))
     ((calls (snd (run qs (init c))) ++ [CallAdd; CallCommit])
      ++ [CallRefresh])).
Proof. apply create_task_fresh, wf_fresh, wf_reachable. Qed.

(** C7, as the claim has it: the task that [create_task] builds under a
    clock that advances between readings has [created_at] and
    [updated_at] apart, each field being stamped by its own reading. *)
Lemma create_task_two_readings :
  fst (create_task (TaskCreate.mk "Task" None) (init ticking))
  = Ok (Task.mk (Some 1) (Some "Task"%string) None (Some "pending"%string)
          1000 1001)
  ∧ 1000 ≠ 1001.
Proof. split; [vm_compute; reflexivity|lia]. Qed.

(** C7, amended: in a state reached by any sequence of requests from the
    empty table, [create_task] succeeds on every validated payload.  The
    record it returns carries the payload's title and description, and an
    identifier that no row has and that no creation of the sequence handed
    out; [created_at] is the reading of the clock taken first and
    [updated_at] the reading taken next.  The record is appended to the
    table as its last row, and a lookup of its identifier returns it. *)
Theorem create_task_succeeds c qs d :
  ∃ x σ',
    create_task d (snd (run qs (init c))) = (Ok x, σ')
    ∧ Task.id x = Some (next_id (db (snd (run qs (init c)))))
    ∧ (next_id (db (snd (run qs (init c))))
         ∉ allocated (fst (run qs (init c))))
    ∧ ¬ live (next_id (db (snd (run qs (init c))))) (snd (run qs (init c)))
    ∧ Task.title x = Some (TaskCreate.title d)
    ∧ Task.description x = TaskCreate.description d
    ∧ Task.status x = Some "pending"%string
    ∧ Task.created_at x = c (ticks (snd (run qs (init c))))
    ∧ Task.updated_at x = c (S (ticks (snd (run qs (init c)))))
    ∧ rows (db σ') = rows (db (snd (run qs (init c)))) ++ [x]
    ∧ fst (get_task (next_id (db (snd (run qs (init c))))) σ') = Ok x.
Proof.
  pose proof (wf_fresh _ (wf_reachable c qs)) as Hf.
  pose proof (clock_reachable c qs) as Hc.
  pose proof (allocated_run qs (init c)) as [_ Hb].
  eexists _, _. split; [apply create_task_reachable|].
  unfold inserted.
  cbn [Task.id Task.title Task.description Task.status Task.created_at
       Task.updated_at db rows].
  rewrite Hc. split; [done|].
  split; [intros Hi; specialize (Hb _ Hi); lia|].
  split.
  { intros [r Hr]%find_task_live. by rewrite Hf in Hr. }
  do 6 (split; [done|]).
  rewrite get_task_eq. cbn [db rows].
  by rewrite (find_task_app_new _ _ _ Hf).
Qed.

(** C10: a creation payload that validates keeps validating to the same
    [TaskCreate] whatever [status] is put in it, since the model declares
    no such field; and in a state reached by any sequence of requests
    from the empty table, the record that [POST /tasks] creates from it
    has the status pending. *)
Theorem created_status_pending c qs body d :
  TaskCreate_validate body = Some d →
  (∀ v, TaskCreate_validate (<["status"%string := v]> body) = Some d)
  ∧ (∀ v, ∃ x σ',
       post_tasks (<["status"%string := v]> body) (snd (run qs (init c)))
         = (Ok x, σ')
       ∧ Task.status x = Some "pending"%string)
  ∧ (∃ x σ', post_tasks body (snd (run qs (init c))) = (Ok x, σ')
             ∧ Task.status x = Some "pending"%string).
Proof.
  intros Hv.
  assert (Hs : ∀ v, TaskCreate_validate (<["status"%string := v]> body)
                    = Some d).
  { intros v. unfold TaskCreate_validate in *.
    by rewrite !lookup_insert_ne by done. }
  assert (Hp : ∃ x σ', create_task d (snd (run qs (init c))) = (Ok x, σ')
                       ∧ Task.status x = Some "pending"%string).
  { eexists _, _. split; [apply create_task_reachable|done]. }
  split; [exact Hs|]. split.
  - intros v. unfold post_tasks. by rewrite Hs.
  - unfold post_tasks. by rewrite Hv.
Qed.

(** A payload that asks for the status completed. *)
Lemma created_status_pending_witness :
  TaskCreate_validate body_with_status
    = Some (TaskCreate.mk "Test Task" None)
  ∧ ∃ x σ', post_tasks body_with_status (snd (run three_tasks (init ticking)))
              = (Ok x, σ')
            ∧ Task.status x = Some "pending"%string.
Proof.
  assert (H : TaskCreate_validate body_with_status
              = Some (TaskCreate.mk "Test Task" None))
    by (vm_compute; reflexivity).
  exact (conj H
           (proj2 (proj2 (created_status_pending ticking three_tasks
                            body_with_status _ H)))).
Defined.

(** ** What one request does to the table *)

Lemma handle_db q σ :
  match q with
  | Create d =>
      db (snd (handle q σ))
      = mkDatabase (rows (db σ) ++ [inserted d σ]) (next_id (db σ) + 1)
  | Update i u =>
      db (snd (handle q σ)) = db σ
      ∨ ∃ r, find_task i (rows (db σ)) = Some r
             ∧ status_accepted u = true
             ∧ is_Some (Task.title (merge u r (clock σ (ticks σ))))
             ∧ is_Some (Task.status (merge u r (clock σ (ticks σ))))
             ∧ db (snd (handle q σ))
               = mkDatabase
                   (replace_row i (merge u r (clock σ (ticks σ)))
                      (rows (db σ)))
                   (next_id (db σ))
  | Delete i =>
      db (snd (handle q σ))
      = mkDatabase (remove_row i (rows (db σ))) (next_id (db σ))
  | _ => db (snd (handle q σ)) = db σ
  end.
Proof.
  destruct q as [d|f|i|i u|i].
  - simpl. by destruct (create_task_eq d σ) as (r & _ & ->).
  - simpl. destruct (list_tasks f σ) as [res σ'] eqn:E. simpl.
    unfold list_tasks, bind, session_exec_all, ret, raise in E.
    destruct f as [s|]; [destruct (truthy (Some s));
      [destruct (negb (in_valid_statuses (Some s)))|]|];
      by injection E as _ <-.
  - simpl. rewrite get_task_eq. unfold not_found.
    by destruct (find_task i (rows (db σ))).
  - simpl. destruct (update_task i u σ) as [[x|e] σ'] eqn:E; simpl.
    + right. apply update_task_Ok in E as (r & Hr & Ha & -> & Ht & Hs & Hdb).
      exists r. by repeat split.
    + left. by apply (update_task_Raise _ _ _ _ _ E).
  - simpl. rewrite delete_task_eq. unfold not_found.
    destruct (find_task i (rows (db σ))) as [r|] eqn:E.
    + apply find_task_Some in E as [_ Hid].
      unfold session_delete_commit. by rewrite Hid.
    + simpl. rewrite (remove_row_absent _ _ E). by destruct (db σ).
Qed.

Lemma run_handle_invariant (P : World → Prop) :
  (∀ q σ, P σ → P (snd (handle q σ))) →
  ∀ qs σ, P σ → P (snd (run qs σ)).
Proof.
  intros Hstep qs. induction qs as [|q qs IH]; intros σ Hσ; [done|].
  rewrite run_cons. cbn [snd]. by apply IH, Hstep.
Qed.

Lemma find_task_app_old i l x r :
  find_task i l = Some r → find_task i (l ++ [x]) = Some r.
Proof.
  unfold find_task. intros H. induction l as [|y l IH]; [done|].
  simpl in *. destruct (has_id i y); [done|]. by apply IH.
Qed.

Lemma find_task_remove_row_ne i j l :
  i ≠ j → find_task i (remove_row j l) = find_task i l.
Proof.
  intros Hne. unfold find_task, remove_row.
  induction l as [|y l IH]; [done|]. cbn [List.filter find].
  destruct (has_id j y) eqn:Ej; cbn [negb].
  - unfold has_id in Ej. apply bool_decide_eq_true in Ej.
    assert (Hi : has_id i y = false)
      by (apply bool_decide_eq_false_2; congruence).
    by rewrite Hi.
  - cbn [find]. by rewrite IH.
Qed.

(** ** Requests that fail, and rows that are not aimed at *)

(** X1: a request that is answered with an exception leaves the table and
    the key generator as they were, whatever the request; and
    [create_task] is never answered with an exception. *)
Theorem failed_request_no_effect q σ :
  (failed (fst (handle q σ)) → db (snd (handle q σ)) = db σ)
  ∧ (∀ d, ¬ failed (fst (handle (Create d) σ))).
Proof.
  split.
  - intros Hf. pose proof (handle_db q σ) as Hdb.
    destruct q as [d|f|i|i u|i]; try exact Hdb.
    + simpl in Hf. by destruct (create_task_eq d σ) as (r & _ & E);
        rewrite E in Hf.
    + simpl in *. destruct (update_task i u σ) as [[x|e] σ'] eqn:E; [done|].
      by apply (update_task_Raise _ _ _ _ _ E).
    + simpl in *. rewrite delete_task_eq in *. unfold not_found in *.
      destruct (find_task i (rows (db σ))) as [r|] eqn:E; [|done].
      apply find_task_Some in E as [_ Hid].
      unfold session_delete_commit in Hf. by rewrite Hid in Hf.
  - intros d Hf. simpl in Hf.
    by destruct (create_task_eq d σ) as (r & _ & E); rewrite E in Hf.
Qed.

(** The update of the second row of [demo] to a status outside the closed
    set fails. *)
Lemma failed_request_no_effect_witness :
  failed (fst (handle (Update 2 bad_status) demo))
  ∧ db (snd (handle (Update 2 bad_status) demo)) = db demo.
Proof.
  assert (H : failed (fst (handle (Update 2 bad_status) demo)))
    by (vm_compute; exact I).
  exact (conj H (proj1 (failed_request_no_effect (Update 2 bad_status) demo) H)).
Defined.

Lemma find_task_handle_other q σ i r :
  find_task i (rows (db σ)) = Some r → target q ≠ Some i →
  find_task i (rows (db (snd (handle q σ)))) = Some r.
Proof.
  intros Hr Ht. pose proof (handle_db q σ) as Hdb.
  destruct q as [d|f|j|j u|j]; simpl in Ht; rewrite ?Hdb; try done.
  - simpl. by apply find_task_app_old.
  - destruct Hdb as [->|(r0 & Hr0 & _ & _ & _ & ->)]; [done|]. simpl.
    apply find_task_Some in Hr0 as [_ Hid].
    rewrite find_task_replace_row_ne; [done|done|congruence].
  - simpl. rewrite find_task_remove_row_ne; [done|congruence].
Qed.

(** X2: a request leaves every row it is not aimed at as it is: the
    lookup of a live identifier [i] returns the same record, with the same
    timestamps, after any creation, listing or lookup, and after any
    update or deletion of another identifier. *)
Theorem other_rows_untouched q σ i r :
  find_task i (rows (db σ)) = Some r →
  target q ≠ Some i →
  find_task i (rows (db (snd (handle q σ)))) = Some r
  ∧ fst (get_task i (snd (handle q σ))) = Ok r.
Proof.
  intros Hr Ht.
  pose proof (find_task_handle_other q σ i r Hr Ht) as H.
  split; [exact H|]. rewrite get_task_eq. by rewrite H.
Qed.

(** The second row of [demo] while the third is deleted. *)
Lemma other_rows_untouched_witness :
  find_task 2 (rows (db demo)) = Some demo_row2
  ∧ target (Delete 3) ≠ Some 2
  ∧ find_task 2 (rows (db (snd (handle (Delete 3) demo)))) = Some demo_row2
  ∧ fst (get_task 2 (snd (handle (Delete 3) demo))) = Ok demo_row2.
Proof.
  assert (H1 : find_task 2 (rows (db demo)) = Some demo_row2)
    by (vm_compute; reflexivity).
  assert (H2 : target (Delete 3) ≠ Some 2) by discriminate.
  exact (conj H1 (conj H2 (other_rows_untouched (Delete 3) demo 2 _ H1 H2))).
Defined.

(** ** The statuses in the table *)

Lemma status_accepted_merge u r now :
  status_accepted u = true → is_Some (Task.status (merge u r now)) →
  status_valid r → status_valid (merge u r now).
Proof.
  unfold status_accepted, status_valid, merge. simpl.
  intros Ha _ Hr. destruct (TaskUpdate.status u) as [[s|]|]; simpl in *.
  - exists s. split; [done|]. by apply bool_decide_eq_true in Ha.
  - discriminate Ha.
  - exact Hr.
Qed.

Lemma pending_valid : "pending"%string ∈ valid_statuses.
Proof. unfold valid_statuses. rewrite !elem_of_cons. auto. Qed.

Lemma handle_status_valid q σ :
  Forall status_valid (rows (db σ)) →
  Forall status_valid (rows (db (snd (handle q σ)))).
Proof.
  intros H. pose proof (handle_db q σ) as Hdb.
  destruct q as [d|f|i|i u|i]; rewrite ?Hdb; try done.
  - simpl. apply Forall_app. split; [done|]. apply Forall_singleton.
    exists "pending"%string. split; [done|apply pending_valid].
  - destruct Hdb as [->|(r & Hr & Ha & _ & Hs & ->)]; [done|]. simpl.
    apply find_task_Some in Hr as [Hr _].
    rewrite Forall_forall in H. apply Forall_forall.
    intros r' [->|Hr']%replace_row_elem; [|by apply H].
    apply status_accepted_merge; auto.
  - simpl. rewrite Forall_forall in H. apply Forall_forall.
    intros r Hr%remove_row_elem. by apply H.
Qed.

Lemma status_valid_reachable c qs :
  Forall status_valid (rows (db (snd (run qs (init c))))).
Proof.
  apply (run_handle_invariant (λ σ, Forall status_valid (rows (db σ)))).
  - intros q σ. apply handle_status_valid.
  - simpl. apply Forall_nil_2.
Qed.

Lemma with_status_partition l :
  Forall status_valid l →
  (length (with_status "pending" l) + length (with_status "in_progress" l)
   + length (with_status "completed" l))%nat = length l.
Proof.
  unfold with_status. induction 1 as [|r l (s & Hs & Hv) _ IH]; [done|].
  unfold valid_statuses in Hv. rewrite !elem_of_cons, elem_of_nil in Hv.
  cbn [List.filter]. rewrite Hs.
  destruct Hv as [->|[->|[->|[]]]]; simpl; lia.
Qed.

(** X3: after any sequence of requests from the empty table, the status
    of every row is pending, in_progress or completed, whatever payloads
    the updates of the sequence carried. *)
Theorem stored_status_valid c qs r :
  r ∈ rows (db (snd (run qs (init c)))) →
  Task.status r = Some "pending"%string
  ∨ Task.status r = Some "in_progress"%string
  ∨ Task.status r = Some "completed"%string.
Proof.
  intros Hr. pose proof (status_valid_reachable c qs) as H.
  rewrite Forall_forall in H. destruct (H r Hr) as (s & -> & Hv).
  unfold valid_statuses in Hv. rewrite !elem_of_cons, elem_of_nil in Hv.
  destruct Hv as [->|[->|[->|[]]]]; auto.
Qed.

(** The second row of [demo]. *)
Lemma stored_status_valid_witness :
  demo_row2 ∈ rows (db (snd (run three_tasks (init ticking))))
  ∧ (Task.status demo_row2 = Some "pending"%string
     ∨ Task.status demo_row2 = Some "in_progress"%string
     ∨ Task.status demo_row2 = Some "completed"%string).
Proof.
  assert (H : demo_row2 ∈ rows (db (snd (run three_tasks (init ticking))))).
  { apply (find_task_Some 2). vm_compute. reflexivity. }
  exact (conj H (stored_status_valid ticking three_tasks demo_row2 H)).
Defined.

(** X4: after any sequence of requests from the empty table, the three
    filtered listings succeed and split the unfiltered one: their lengths
    add up to the number of rows. *)
Theorem listings_partition c qs :
  ∃ lp li lc la,
    fst (list_tasks (Some "pending"%string) (snd (run qs (init c)))) = Ok lp
    ∧ fst (list_tasks (Some "in_progress"%string) (snd (run qs (init c))))
      = Ok li
    ∧ fst (list_tasks (Some "completed"%string) (snd (run qs (init c))))
      = Ok lc
    ∧ fst (list_tasks None (snd (run qs (init c)))) = Ok la
    ∧ (length lp + length li + length lc)%nat = length la.
Proof.
  eexists _, _, _, _.
  split; [reflexivity|]. split; [reflexivity|]. split; [reflexivity|].
  split; [by rewrite list_tasks_unfiltered|].
  apply with_status_partition, status_valid_reachable.
Qed.

(** ** Requests one after the other *)

Lemma merged_twice {A} (p : option A) (a : A) :
  merged p (merged p a) = merged p a.
Proof. by destruct p. Qed.

(** X5: an update that has succeeded succeeds again with the same
    payload, and the second record differs from the first in [updated_at]
    at most: title, description, status, [id] and [created_at] are the
    same. *)
Theorem update_task_twice i u σ x σ1 :
  update_task i u σ = (Ok x, σ1) →
  ∃ x' σ2,
    update_task i u σ1 = (Ok x', σ2)
    ∧ Task.title x' = Task.title x
    ∧ Task.description x' = Task.description x
    ∧ Task.status x' = Task.status x
    ∧ Task.id x' = Task.id x
    ∧ Task.created_at x' = Task.created_at x
    ∧ Task.updated_at x' = clock σ1 (ticks σ1).
Proof.
  intros H.
  apply update_task_Ok in H as (r & Hr & Ha & -> & [t Ht] & [s Hs] & Hdb).
  pose proof (find_task_Some _ _ _ Hr) as [_ Hid].
  set (x := merge u r (clock σ (ticks σ))) in *.
  assert (Hx : find_task i (rows (db σ1)) = Some x).
  { rewrite Hdb. simpl. by eapply find_task_replace_row. }
  rewrite (update_task_accepted _ _ _ _ Hx Ha). cbn zeta.
  unfold flush. cbn [merge Task.title Task.status Task.id].
  unfold x at 1 2 3. cbn [merge Task.title Task.status Task.id].
  rewrite !merged_twice.
  change (merged (TaskUpdate.title u) (Task.title r)) with (Task.title x).
  change (merged (TaskUpdate.status u) (Task.status r)) with (Task.status x).
  rewrite Ht, Hs, Hid. eexists _, _. split; [reflexivity|].
  unfold x. simpl. by rewrite !merged_twice.
Qed.

(** The second row of [demo], given the same title twice. *)
Lemma update_task_twice_witness :
  update_task 2 retitle demo = (Ok demo_row2_retitled, demo_retitled)
  ∧ ∃ x' σ2,
      update_task 2 retitle demo_retitled = (Ok x', σ2)
      ∧ Task.title x' = Task.title demo_row2_retitled
      ∧ Task.description x' = Task.description demo_row2_retitled
      ∧ Task.status x' = Task.status demo_row2_retitled
      ∧ Task.id x' = Task.id demo_row2_retitled
      ∧ Task.created_at x' = Task.created_at demo_row2_retitled
      ∧ Task.updated_at x' = clock demo_retitled (ticks demo_retitled).
Proof.
  assert (H : update_task 2 retitle demo
              = (Ok demo_row2_retitled, demo_retitled))
    by (vm_compute; reflexivity).
  exact (conj H (update_task_twice 2 retitle demo _ _ H)).
Defined.

Lemma remove_row_app i l1 l2 :
  remove_row i (l1 ++ l2) = remove_row i l1 ++ remove_row i l2.
Proof. unfold remove_row. apply List.filter_app. Qed.

(** X6: in a state reached by any sequence of requests from the empty
    table, a creation followed by the deletion of the identifier it
    returned leaves the rows of the table as they were before the
    creation, and the identifier is not found afterwards. *)
Theorem create_then_delete c qs d :
  ∃ x n σ1 σ2,
    create_task d (snd (run qs (init c))) = (Ok x, σ1)
    ∧ Task.id x = Some n
    ∧ delete_task n σ1 = (Ok tt, σ2)
    ∧ rows (db σ2) = rows (db (snd (run qs (init c))))
    ∧ fst (get_task n σ2)
      = Raise (HTTPException HTTP_404_NOT_FOUND (TaskNotFound n)).
Proof.
  pose proof (wf_fresh _ (wf_reachable c qs)) as Hf.
  eexists _, _, _, _. split; [apply create_task_reachable|].
  split; [reflexivity|].
  rewrite delete_task_eq. cbn [db rows].
  rewrite (find_task_app_new _ _ _ Hf) by done.
  unfold session_delete_commit. cbn [inserted Task.id].
  split; [reflexivity|]. cbn [db rows with_db with_call]. split.
  - rewrite remove_row_app, (remove_row_absent _ _ Hf).
    unfold remove_row, has_id. cbn [List.filter Task.id].
    rewrite bool_decide_eq_true_2 by done. cbn [negb]. apply app_nil_r.
  - rewrite get_task_eq. cbn [db rows with_db with_call].
    by rewrite find_task_remove_row.
Qed.

Lemma remove_row_split i l r :
  NoDup (Task.id <$> l) → find_task i l = Some r →
  ∃ l1 l2, l = l1 ++ r :: l2 ∧ remove_row i l = l1 ++ l2.
Proof.
  intros Hnd Hr. induction l as [|y l IH]; [done|].
  rewrite fmap_cons in Hnd. apply NoDup_cons in Hnd as [Hy Hnd].
  unfold find_task in Hr. cbn [find] in Hr.
  unfold remove_row. cbn [List.filter].
  destruct (has_id i y) eqn:E; cbn [negb].
  - injection Hr as ->. exists [], l. split; [done|]. simpl.
    apply remove_row_absent, find_task_None. intros r' Hr' Hid.
    unfold has_id in E. apply bool_decide_eq_true in E.
    apply Hy. rewrite E, <- Hid. by apply list_elem_of_fmap_2.
  - destruct (IH Hnd Hr) as (l1 & l2 & -> & Hrm).
    exists (y :: l1), l2. split; [done|]. simpl. f_equal. exact Hrm.
Qed.

(** X7: in a state reached by any sequence of requests from the empty
    table, a deletion that succeeds takes exactly one row out: the listing
    afterwards is the listing before without the row of that identifier,
    the rows before it and after it in their order. *)
Theorem delete_then_list c qs i σ' :
  delete_task i (snd (run qs (init c))) = (Ok tt, σ') →
  ∃ l1 r l2,
    fst (list_tasks None (snd (run qs (init c)))) = Ok (l1 ++ r :: l2)
    ∧ Task.id r = Some i
    ∧ fst (list_tasks None σ') = Ok (l1 ++ l2).
Proof.
  intros H. rewrite delete_task_eq in H.
  destruct (find_task i (rows (db (snd (run qs (init c)))))) as [r|] eqn:E;
    [|discriminate H].
  pose proof (find_task_Some _ _ _ E) as [_ Hid].
  unfold session_delete_commit in H. rewrite Hid in H. injection H as <-.
  destruct (wf_reachable c qs) as [_ Hnd].
  destruct (remove_row_split _ _ _ Hnd E) as (l1 & l2 & Hl & Hrm).
  exists l1, r, l2. rewrite !list_tasks_unfiltered by done.
  cbn [fst db rows with_db with_call]. rewrite Hrm, Hl. by repeat split.
Qed.

(** The second row of [demo] deleted. *)
Lemma delete_then_list_witness :
  delete_task 2 (snd (run three_tasks (init ticking)))
    = (Ok tt, snd (delete_task 2 demo))
  ∧ ∃ l1 r l2,
      fst (list_tasks None (snd (run three_tasks (init ticking))))
        = Ok (l1 ++ r :: l2)
      ∧ Task.id r = Some 2
      ∧ fst (list_tasks None (snd (delete_task 2 demo))) = Ok (l1 ++ l2).
Proof.
  assert (H : delete_task 2 (snd (run three_tasks (init ticking)))
              = (Ok tt, snd (delete_task 2 demo)))
    by (vm_compute; reflexivity).
  exact (conj H (delete_then_list ticking three_tasks 2 _ H)).
Defined.

(** X8: in a state reached by any sequence of requests from the empty
    table, the task that a creation returns is the last of the unfiltered
    listing and of the pending listing afterwards, after the tasks listed
    before; the in_progress and completed listings are as before. *)
Theorem create_then_list c qs d :
  ∃ x σ',
    create_task d (snd (run qs (init c))) = (Ok x, σ')
    ∧ fst (list_tasks None σ') = Ok (rows (db (snd (run qs (init c)))) ++ [x])
    ∧ fst (list_tasks (Some "pending"%string) σ')
      = Ok (with_status "pending" (rows (db (snd (run qs (init c))))) ++ [x])
    ∧ fst (list_tasks (Some "in_progress"%string) σ')
      = fst (list_tasks (Some "in_progress"%string) (snd (run qs (init c))))
    ∧ fst (list_tasks (Some "completed"%string) σ')
      = fst (list_tasks (Some "completed"%string) (snd (run qs (init c)))).
Proof.
  eexists _, _. split; [apply create_task_reachable|].
  rewrite list_tasks_unfiltered by done.
  rewrite !list_tasks_filtered
    by (unfold valid_statuses; rewrite !elem_of_cons; auto).
  cbn [fst db rows]. split; [done|].
  unfold with_status. rewrite !List.filter_app.
  cbn [List.filter inserted Task.status].
  rewrite bool_decide_eq_true_2 by done.
  rewrite !bool_decide_eq_false_2 by discriminate.
  by rewrite !app_nil_r.
Qed.

(** ** The response model *)

Lemma list_tasks_rows f σ l σ' :
  list_tasks f σ = (Ok l, σ') → ∀ x, x ∈ l → x ∈ rows (db σ).
Proof.
  intros E x Hx.
  assert (Hl : ∃ st, l = List.filter (matches st) (rows (db σ))).
  { unfold list_tasks, bind, session_exec_all, ret, raise in E.
    destruct f as [s|]; [destruct (truthy (Some s));
      [destruct (negb (in_valid_statuses (Some s)))|]|];
      try discriminate E; injection E as <- _; eauto. }
  destruct Hl as [st ->].
  apply list_elem_of_In, filter_In in Hx as [Hx _].
  by apply list_elem_of_In.
Qed.

Lemma row_ok_response d x : row_ok d x → is_Some (TaskResponse_validate x).
Proof.
  intros [(i & Hi & _) [[t Ht] [s Hs]]].
  unfold TaskResponse_validate. rewrite Hi, Ht, Hs. eauto.
Qed.

(** X9: in a state reached by any sequence of requests from the empty
    table, every task that a handler returns, alone or in a listing,
    validates against the response model: it has an [id], a title and a
    status, and the response carries them with the task's description and
    timestamps. *)
Theorem responses_validate c qs q x :
  x ∈ returned (fst (handle q (snd (run qs (init c))))) →
  ∃ i t s,
    Task.id x = Some i ∧ Task.title x = Some t ∧ Task.status x = Some s
    ∧ TaskResponse_validate x
      = Some (TaskResponse.mk i t (Task.description x) s
                (Task.created_at x) (Task.updated_at x)).
Proof.
  intros Hx.
  assert (H : is_Some (TaskResponse_validate x)).
  { destruct (wf_reachable c qs) as [Hall _]. rewrite Forall_forall in Hall.
    set (σ := snd (run qs (init c))) in *.
    destruct q as [d|f|i|i u|i]; simpl in Hx.
    - unfold σ in Hx. rewrite create_task_reachable in Hx. simpl in Hx.
      apply list_elem_of_singleton in Hx as ->.
      unfold TaskResponse_validate. simpl. eauto.
    - destruct (list_tasks f σ) as [[l|e] σ'] eqn:E; simpl in Hx;
        [|by apply elem_of_nil in Hx].
      eapply row_ok_response, Hall, list_tasks_rows; eauto.
    - rewrite get_task_eq in Hx. unfold not_found in Hx.
      destruct (find_task i (rows (db σ))) as [r|] eqn:E; simpl in Hx;
        [|by apply elem_of_nil in Hx].
      apply list_elem_of_singleton in Hx as ->.
      apply find_task_Some in E as [E _]. eapply row_ok_response, Hall, E.
    - destruct (update_task i u σ) as [[y|e] σ'] eqn:E; simpl in Hx;
        [|by apply elem_of_nil in Hx].
      apply list_elem_of_singleton in Hx as ->.
      apply update_task_Ok in E as (r & Hr & _ & -> & [t Ht] & [s Hs] & _).
      apply find_task_Some in Hr as [_ Hid].
      unfold TaskResponse_validate.
      change (Task.id (merge u r (clock σ (ticks σ)))) with (Task.id r).
      rewrite Hid, Ht, Hs. eauto.
    - destruct (delete_task i σ) as [[[]|e] σ']; simpl in Hx;
        by apply elem_of_nil in Hx. }
  destruct H as [resp H]. unfold TaskResponse_validate in *.
  destruct (Task.id x) as [i|]; [|discriminate H].
  destruct (Task.title x) as [t|]; [|discriminate H].
  destruct (Task.status x) as [s|]; [|discriminate H].
  by exists i, t, s.
Qed.

(** The second row of [demo], looked up. *)
Lemma responses_validate_witness :
  demo_row2 ∈ returned (fst (handle (Get 2)
                               (snd (run three_tasks (init ticking)))))
  ∧ ∃ i t s,
      Task.id demo_row2 = Some i ∧ Task.title demo_row2 = Some t
      ∧ Task.status demo_row2 = Some s
      ∧ TaskResponse_validate demo_row2
        = Some (TaskResponse.mk i t (Task.description demo_row2) s
                  (Task.created_at demo_row2) (Task.updated_at demo_row2)).
Proof.
  assert (H : demo_row2 ∈ returned (fst (handle (Get 2)
                (snd (run three_tasks (init ticking)))))).
  { vm_compute. left. }
  exact (conj H (responses_validate ticking three_tasks (Get 2) demo_row2 H)).
Defined.

(** ** Validation of the request bodies *)

Lemma TaskCreate_validate_Some body d :
  TaskCreate_validate body = Some d →
  body !! "title"%string = Some (JString (TaskCreate.title d))
  ∧ payload_within_schema (Create d).
Proof.
  unfold TaskCreate_validate, validate_title, validate_description. simpl.
  destruct (body !! "title"%string) as [[| | |t| |]|]; try discriminate.
  case_bool_decide as Ht; [|discriminate].
  destruct (body !! "description"%string) as [[| | |s| |]|]; try discriminate.
  - intros [= <-]. simpl. repeat split; try lia. discriminate.
  - case_bool_decide as Hs; [|discriminate]. intros [= <-]. simpl.
    repeat split; try lia. by intros ? [= <-].
  - intros [= <-]. simpl. repeat split; try lia. discriminate.
Qed.

Lemma TaskCreate_validate_ok body :
  creation_body_ok body ↔ is_Some (TaskCreate_validate body).
Proof.
  unfold creation_body_ok, TaskCreate_validate, validate_title,
    validate_description. split.
  - intros [(t & -> & Ht) Hd]. rewrite bool_decide_eq_true_2 by done.
    destruct Hd as [->|[->|(d & -> & Hd)]]; eauto.
    rewrite bool_decide_eq_true_2 by done. eauto.
  - intros [d H].
    destruct (body !! "title"%string) as [[| | |t| |]|]; try discriminate.
    case_bool_decide as Ht; [|discriminate]. split; [eauto|].
    destruct (body !! "description"%string) as [[| | |s| |]|];
      try discriminate; auto.
    case_bool_decide as Hs; [|discriminate]. eauto.
Qed.

(** X10: [POST /tasks] creates a task exactly from the bodies whose
    title is a string of 1 to 200 characters and whose description is
    left out, null or a string of at most 1000 characters: in a state
    reached from the empty table such a body is answered with the created
    task, under that title; any other body raises the validation error
    before the handler runs, and the state is as before, the clock not
    read and no identifier used. *)
Theorem post_tasks_validation c qs body σ :
  (creation_body_ok body →
   ∃ x σ', post_tasks body (snd (run qs (init c))) = (Ok x, σ')
           ∧ body !! "title"%string = JString <$> Task.title x)
  ∧ (¬ creation_body_ok body →
     post_tasks body σ = (Raise RequestValidationError, σ)).
Proof.
  unfold post_tasks. split.
  - intros [d Hd]%TaskCreate_validate_ok. rewrite Hd.
    eexists _, _. split; [apply create_task_reachable|].
    by apply TaskCreate_validate_Some in Hd as [-> _].
  - intros Hn. destruct (TaskCreate_validate body) as [d|] eqn:E; [|done].
    exfalso. apply Hn, TaskCreate_validate_ok. eauto.
Qed.

(** A body with a title, and a body without. *)
Lemma post_tasks_validation_witness :
  creation_body_ok body_with_status
  ∧ (∃ x σ', post_tasks body_with_status
               (snd (run three_tasks (init ticking))) = (Ok x, σ')
             ∧ body_with_status !! "title"%string = JString <$> Task.title x)
  ∧ ¬ creation_body_ok body_no_title
  ∧ post_tasks body_no_title demo = (Raise RequestValidationError, demo).
Proof.
  assert (H1 : creation_body_ok body_with_status).
  { apply TaskCreate_validate_ok. vm_compute. eauto. }
  assert (H2 : ¬ creation_body_ok body_no_title).
  { intros [d Hd]%TaskCreate_validate_ok. vm_compute in Hd. discriminate Hd. }
  exact (conj H1
    (conj (proj1 (post_tasks_validation ticking three_tasks
                    body_with_status demo) H1)
       (conj H2
          (proj2 (post_tasks_validation ticking three_tasks
                    body_no_title demo) H2)))).
Defined.

(** X11: a key that [TaskUpdate] does not declare has no effect on
    [PUT /tasks/{task_id}]: with or without it in the body, the answer and
    the state afterwards are the same.  A body cannot set [id],
    [created_at] or [updated_at]. *)
Theorem put_task_undeclared_key i body k v σ :
  k ≠ "title"%string → k ≠ "description"%string → k ≠ "status"%string →
  put_task i (<[k := v]> body) σ = put_task i body σ.
Proof.
  intros H1 H2 H3. unfold put_task, TaskUpdate_validate.
  by rewrite !lookup_insert_ne by done.
Qed.

(** A body that asks for another [id]. *)
Lemma put_task_undeclared_key_witness :
  "id"%string ≠ "title"%string
  ∧ "id"%string ≠ "description"%string
  ∧ "id"%string ≠ "status"%string
  ∧ put_task 2 (<["id"%string := JNumber 7]> body_retitle) demo
    = put_task 2 body_retitle demo.
Proof.
  assert (H1 : "id"%string ≠ "title"%string) by discriminate.
  assert (H2 : "id"%string ≠ "description"%string) by discriminate.
  assert (H3 : "id"%string ≠ "status"%string) by discriminate.
  exact (conj H1 (conj H2 (conj H3
           (put_task_undeclared_key 2 body_retitle "id" (JNumber 7) demo
              H1 H2 H3)))).
Defined.

Lemma TaskUpdate_validate_Some i body u :
  TaskUpdate_validate body = Some u → payload_within_schema (Update i u).
Proof.
  unfold TaskUpdate_validate, validate_optional_str, validate_optional_status.
  simpl. intros H.
  destruct (body !! "title"%string) as [[| | |t| |]|]; try discriminate;
    try (case_bool_decide as Ht; [|discriminate]);
    (destruct (body !! "description"%string) as [[| | |d| |]|];
       try discriminate;
       try (case_bool_decide as Hd; [|discriminate]));
    (destruct (body !! "status"%string) as [[| | |s| |]|];
       try discriminate);
    injection H as <-; simpl; split; intros ? [= <-]; lia.
Qed.

Lemma merge_within_schema i u r now :
  payload_within_schema (Update i u) → status_accepted u = true →
  is_Some (Task.title (merge u r now)) →
  is_Some (Task.status (merge u r now)) →
  within_schema r → within_schema (merge u r now).
Proof.
  intros [Hpt Hpd] Ha [t Ht] Hs (Hrt & Hrd & Hrs).
  split; [|split; [|by apply status_accepted_merge]].
  - simpl in *. destruct (TaskUpdate.title u) as [[t'|]|]; simpl in *.
    + exists t'. split; [done|]. by apply Hpt.
    + discriminate Ht.
    + exact Hrt.
  - simpl. intros d Hd.
    destruct (TaskUpdate.description u) as [[d'|]|]; simpl in *.
    + injection Hd as <-. by apply Hpd.
    + discriminate Hd.
    + by apply Hrd.
Qed.

Lemma handle_within_schema q σ :
  payload_within_schema q →
  Forall within_schema (rows (db σ)) →
  Forall within_schema (rows (db (snd (handle q σ)))).
Proof.
  intros Hp H. pose proof (handle_db q σ) as Hdb.
  destruct q as [d|f|i|i u|i]; rewrite ?Hdb; try done.
  - simpl. apply Forall_app. split; [done|]. apply Forall_singleton.
    destruct Hp as [Ht Hd]. split; [|split].
    + simpl. eauto.
    + simpl. exact Hd.
    + exists "pending"%string. split; [done|apply pending_valid].
  - destruct Hdb as [->|(r & Hr & Ha & Ht & Hs & ->)]; [done|]. simpl.
    apply find_task_Some in Hr as [Hr _].
    rewrite Forall_forall in H. apply Forall_forall.
    intros r' [->|Hr']%replace_row_elem; [|by apply H].
    apply (merge_within_schema i); auto.
  - simpl. rewrite Forall_forall in H. apply Forall_forall.
    intros r Hr%remove_row_elem. by apply H.
Qed.

Lemma serve_state h σ :
  snd (serve h σ) = σ
  ∨ ∃ q, snd (serve h σ) = snd (handle q σ) ∧ payload_within_schema q.
Proof.
  destruct h as [body|query|i|i body|i]; simpl.
  - unfold post_tasks.
    destruct (TaskCreate_validate body) as [d|] eqn:E; [|by left].
    right. exists (Create d). split; [done|].
    by apply TaskCreate_validate_Some in E as [_ E].
  - right. by exists (List (query !! "status_filter"%string)).
  - right. by exists (Get i).
  - unfold put_task.
    destruct (TaskUpdate_validate body) as [u|] eqn:E; [|by left].
    right. exists (Update i u). split; [done|].
    by apply (TaskUpdate_validate_Some i) in E.
  - right. by exists (Delete i).
Qed.

Lemma serve_all_invariant (P : World → Prop) :
  (∀ h σ, P σ → P (snd (serve h σ))) →
  ∀ hs σ, P σ → P (snd (serve_all hs σ)).
Proof.
  intros Hstep hs. induction hs as [|h hs IH]; intros σ Hσ; [done|].
  simpl. specialize (Hstep h σ Hσ). destruct (serve h σ) as [r σ1].
  specialize (IH σ1 Hstep). by destruct (serve_all hs σ1) as [rs σ2].
Qed.

(** X12: after any sequence of requests served from the empty table,
    whatever their bodies, every row has a title of 1 to 200 characters,
    a description of at most 1000 characters if it has one, and a status
    of the closed set: what the request models and the handlers reject
    never reaches the table. *)
Theorem stored_within_schema c hs r :
  r ∈ rows (db (snd (serve_all hs (init c)))) →
  (∃ t, Task.title r = Some t ∧ (1 ≤ String.length t ≤ 200)%nat)
  ∧ (∀ d, Task.description r = Some d → (String.length d ≤ 1000)%nat)
  ∧ (∃ s, Task.status r = Some s ∧ s ∈ valid_statuses).
Proof.
  intros Hr.
  assert (H : Forall within_schema (rows (db (snd (serve_all hs (init c)))))).
  { apply (serve_all_invariant (λ σ, Forall within_schema (rows (db σ)))).
    - intros h σ Hσ. destruct (serve_state h σ) as [->|(q & -> & Hq)];
        [done|by apply handle_within_schema].
    - simpl. apply Forall_nil_2. }
  rewrite Forall_forall in H. exact (H r Hr).
Qed.

(** The row that [http_demo] leaves, after a body without title and a
    body with a null title have been turned down. *)
Lemma stored_within_schema_witness :
  http_demo_row ∈ rows (db (snd (serve_all http_demo (init ticking))))
  ∧ (∃ t, Task.title http_demo_row = Some t
          ∧ (1 ≤ String.length t ≤ 200)%nat)
  ∧ (∀ d, Task.description http_demo_row = Some d
          → (String.length d ≤ 1000)%nat)
  ∧ (∃ s, Task.status http_demo_row = Some s ∧ s ∈ valid_statuses).
Proof.
  assert (H : http_demo_row
              ∈ rows (db (snd (serve_all http_demo (init ticking))))).
  { vm_compute. left. }
  exact (conj H (stored_within_schema ticking http_demo http_demo_row H)).
Defined.

(** ** Updates and lookups against the listings *)

(** X13: after an update that succeeds, the listing by a status of the
    closed set holds the returned record if and only if that is the
    record's status, and holds no other record under the updated
    identifier. *)
Theorem update_then_list i u σ x σ' s :
  update_task i u σ = (Ok x, σ') → s ∈ valid_statuses →
  ∃ l, fst (list_tasks (Some s) σ') = Ok l
       ∧ (x ∈ l ↔ Task.status x = Some s)
       ∧ (∀ y, y ∈ l → Task.id y = Some i → y = x).
Proof.
  intros H Hs. rewrite (list_tasks_filtered _ _ Hs). eexists. split; [done|].
  apply update_task_Ok in H as (r & Hr & _ & Hx & _ & _ & Hdb).
  pose proof (find_task_Some _ _ _ Hr) as [_ Hid].
  assert (Hxid : Task.id x = Some i) by (by rewrite Hx).
  rewrite Hdb. cbn [rows]. split; [split|].
  - intros [_ Hst]%list_elem_of_In%filter_In.
    by apply bool_decide_eq_true in Hst.
  - intros Hst. apply list_elem_of_In, filter_In. split.
    + apply list_elem_of_In, (find_task_Some i).
      by eapply find_task_replace_row.
    + by apply bool_decide_eq_true_2.
  - intros y [Hy _]%list_elem_of_In%filter_In Hyid.
    unfold replace_row in Hy. apply in_map_iff in Hy as (r0 & Hy & _).
    destruct (has_id i r0) eqn:E; [done|]. subst y.
    unfold has_id in E. by apply bool_decide_eq_false in E.
Qed.

(** The second row of [demo], completed. *)
Lemma update_then_list_witness :
  update_task 2 complete demo
    = (Ok (Task.mk (Some 2) (Some "Task 2"%string) (Some "second"%string)
             (Some "completed"%string) 1002 1007),
       snd (update_task 2 complete demo))
  ∧ ("completed"%string ∈ valid_statuses)
  ∧ ∃ l, fst (list_tasks (Some "completed"%string)
                (snd (update_task 2 complete demo))) = Ok l
         ∧ (Task.mk (Some 2) (Some "Task 2"%string) (Some "second"%string)
              (Some "completed"%string) 1002 1007 ∈ l
            ↔ Some "completed"%string = Some "completed"%string)
         ∧ (∀ y, y ∈ l → Task.id y = Some 2 →
                 y = Task.mk (Some 2) (Some "Task 2"%string)
                       (Some "second"%string) (Some "completed"%string)
                       1002 1007).
Proof.
  assert (H1 : update_task 2 complete demo
    = (Ok (Task.mk (Some 2) (Some "Task 2"%string) (Some "second"%string)
             (Some "completed"%string) 1002 1007),
       snd (update_task 2 complete demo))) by (vm_compute; reflexivity).
  assert (H2 : "completed"%string ∈ valid_statuses)
    by (unfold valid_statuses; rewrite !elem_of_cons; auto).
  exact (conj H1 (conj H2 (update_then_list 2 complete demo _ _ _ H1 H2))).
Defined.

(** X14: in a state reached by any sequence of requests from the empty
    table under a clock that never runs backwards, a record that is still
    found after a further request, whatever the request, has the
    [created_at] it had and an [updated_at] that is not earlier. *)
Theorem timestamps_over_requests c qs q i r r' :
  monotone c →
  find_task i (rows (db (snd (run qs (init c))))) = Some r →
  find_task i (rows (db (snd (handle q (snd (run qs (init c))))))) = Some r' →
  Task.created_at r' = Task.created_at r
  ∧ Task.updated_at r ≤ Task.updated_at r'.
Proof.
  intros Hm Hr Hr'.
  pose proof (stamped_reachable c qs) as Hs.
  pose proof (clock_reachable c qs) as Hc.
  set (σ := snd (run qs (init c))) in *.
  destruct (decide (target q = Some i)) as [Ht|Ht].
  - pose proof (handle_db q σ) as Hdb.
    destruct q as [d|f|j|j u|j]; try discriminate Ht;
      injection Ht as ->.
    + destruct Hdb as [Hdb|(r0 & Hr0 & _ & _ & _ & Hdb)]; rewrite Hdb in Hr'.
      * rewrite Hr in Hr'. injection Hr' as <-. split; [done|lia].
      * rewrite Hr in Hr0. injection Hr0 as <-. simpl in Hr'.
        pose proof (find_task_Some _ _ _ Hr) as [Hin Hid].
        erewrite find_task_replace_row in Hr'; [|exact Hr|done].
        injection Hr' as <-. simpl. split; [done|].
        destruct (Hs r Hin) as (kc & ku & Hle & _ & ->). rewrite Hc.
        apply Hm. lia.
    + rewrite Hdb in Hr'. simpl in Hr'.
      by rewrite find_task_remove_row in Hr'.
  - rewrite (find_task_handle_other q σ i r Hr Ht) in Hr'.
    injection Hr' as <-. split; [done|lia].
Qed.

(** The second row of [demo] across its update. *)
Lemma timestamps_over_requests_witness :
  monotone ticking
  ∧ find_task 2 (rows (db (snd (run three_tasks (init ticking)))))
    = Some demo_row2
  ∧ find_task 2 (rows (db (snd (handle (Update 2 retitle)
                                  (snd (run three_tasks (init ticking)))))))
    = Some demo_row2_retitled
  ∧ Task.created_at demo_row2_retitled = Task.created_at demo_row2
  ∧ Task.updated_at demo_row2 ≤ Task.updated_at demo_row2_retitled.
Proof.
  assert (H1 : monotone ticking) by (intros n m H; unfold ticking; lia).
  assert (H2 : find_task 2 (rows (db (snd (run three_tasks (init ticking)))))
               = Some demo_row2) by (vm_compute; reflexivity).
  assert (H3 : find_task 2 (rows (db (snd (handle (Update 2 retitle)
                 (snd (run three_tasks (init ticking)))))))
               = Some demo_row2_retitled) by (vm_compute; reflexivity).
  exact (conj H1 (conj H2 (conj H3
    (timestamps_over_requests ticking three_tasks (Update 2 retitle) 2 _ _
       H1 H2 H3)))).
Defined.

Lemma find_task_unique i l x :
  NoDup (Task.id <$> l) → x ∈ l → Task.id x = Some i →
  find_task i l = Some x.
Proof.
  intros Hnd Hx Hid. induction l as [|y l IH]; [by apply elem_of_nil in Hx|].
  rewrite fmap_cons in Hnd. apply NoDup_cons in Hnd as [Hy Hnd].
  unfold find_task. cbn [find].
  apply elem_of_cons in Hx as [<-|Hx].
  - unfold has_id. by rewrite bool_decide_eq_true_2.
  - destruct (has_id i y) eqn:E; [|by apply IH].
    exfalso. apply Hy. unfold has_id in E. apply bool_decide_eq_true in E.
    rewrite E, <- Hid. by apply list_elem_of_fmap_2.
Qed.

(** X15: in a state reached by any sequence of requests from the empty
    table, the listing and the lookup agree: every task of the unfiltered
    listing has an identifier under which [get_task] returns that very
    task, and every task that [get_task] returns is in the listing. *)
Theorem list_get_agree c qs :
  ∃ l, fst (list_tasks None (snd (run qs (init c)))) = Ok l
       ∧ (∀ x, x ∈ l →
            ∃ i, Task.id x = Some i
                 ∧ fst (get_task i (snd (run qs (init c)))) = Ok x)
       ∧ (∀ i x, fst (get_task i (snd (run qs (init c)))) = Ok x →
                 x ∈ l ∧ Task.id x = Some i).
Proof.
  rewrite list_tasks_unfiltered by done. eexists. split; [done|].
  destruct (wf_reachable c qs) as [Hall Hnd]. rewrite Forall_forall in Hall.
  split.
  - intros x Hx. destruct (Hall x Hx) as [(i & Hi & _) _]. exists i.
    split; [done|]. rewrite get_task_eq.
    by rewrite (find_task_unique i _ x Hnd Hx Hi).
  - intros i x H. rewrite get_task_eq in H. unfold not_found in H.
    destruct (find_task i (rows (db (snd (run qs (init c)))))) as [r|] eqn:E;
      [|discriminate H].
    injection H as <-. by apply find_task_Some.
Qed.

(** The second row of [demo], listed and looked up. *)
Lemma list_get_agree_witness :
  fst (get_task 2 (snd (run three_tasks (init ticking)))) = Ok demo_row2
  ∧ Task.id demo_row2 = Some 2.
Proof.
  assert (H : fst (get_task 2 (snd (run three_tasks (init ticking))))
              = Ok demo_row2) by (vm_compute; reflexivity).
  destruct (list_get_agree ticking three_tasks) as (l & _ & _ & Hg).
  exact (conj H (proj2 (Hg 2 demo_row2 H))).
Defined.
